(** * Shallow embedding of the sas-operator reconciliation engine

    Sources: src/src/crd.rs, src/src/reconcile.rs, src/src/sas.rs,
    src/src/secret.rs, src/src/status.rs.

    Effects are modelled by a small reader/writer/error monad [M]: the
    [World] gives the answers of the outside (clock, Azure, Kubernetes API
    server, the randomness of the jitter), the trace records every request
    the controller sends and every log line it emits, and an outcome is a
    value, an error or a Rust panic. *)

From Stdlib Require Import ZArith Lia Ascii.
From stdpp Require Import base gmap strings list pretty.

Open Scope Z_scope.

(* ------------------------------------------------------------------ *)
(** ** Machine integers and the [time] crate *)

Definition I64_MIN : Z := - 2 ^ 63.
Definition I64_MAX : Z := 2 ^ 63 - 1.

Definition i64_in_range (x : Z) : bool := (I64_MIN <=? x) && (x <=? I64_MAX).

(** [i64::checked_mul]. *)
Definition i64_checked_mul (a b : Z) : option Z :=
  if i64_in_range (a * b) then Some (a * b) else None.

Definition NS_PER_SEC : Z := 1000000000.

(** [time::Duration], as whole seconds plus nanoseconds, kept as one
    nanosecond count. *)
Record Duration := mkDuration { dur_ns : Z }.

(** [Duration::hours]: [expect_opt!(hours.checked_mul(3600))], so [None]
    stands for the panic "overflow constructing `time::Duration`". *)
Definition Duration_hours (h : Z) : option Duration :=
  match i64_checked_mul h 3600 with
  | Some s => Some (mkDuration (s * NS_PER_SEC))
  | None => None
  end.

(** [Duration::seconds] for a small literal. *)
Definition Duration_seconds (s : Z) : Duration := mkDuration (s * NS_PER_SEC).

(** [time::OffsetDateTime]: the local date-time (nanoseconds since
    1970-01-01T00:00:00 read on the local wall clock) and the UTC offset in
    seconds. *)
Record OffsetDateTime := mkODT { odt_local_ns : Z; odt_offset_s : Z }.

(** The instant an [OffsetDateTime] denotes, in nanoseconds since the Unix
    epoch; [Ord] on [OffsetDateTime] compares these. *)
Definition odt_utc_ns (t : OffsetDateTime) : Z :=
  odt_local_ns t - odt_offset_s t * NS_PER_SEC.

(** [PrimitiveDateTime::MIN] = -9999-01-01T00:00:00 and
    [PrimitiveDateTime::MAX] = 9999-12-31T23:59:59.999999999 (the crate
    without [large-dates]). *)
Definition LOCAL_MIN_NS : Z := -377705116800 * NS_PER_SEC.
Definition LOCAL_MAX_NS : Z := 253402300799 * NS_PER_SEC + 999999999.

Definition local_in_range (l : Z) : bool := (LOCAL_MIN_NS <=? l) && (l <=? LOCAL_MAX_NS).

(** [OffsetDateTime::checked_add] / [checked_sub]: the arithmetic is done on
    the local date-time and the offset is kept. *)
Definition odt_checked_add (t : OffsetDateTime) (d : Duration) : option OffsetDateTime :=
  let l := odt_local_ns t + dur_ns d in
  if local_in_range l then Some (mkODT l (odt_offset_s t)) else None.

Definition odt_checked_sub (t : OffsetDateTime) (d : Duration) : option OffsetDateTime :=
  let l := odt_local_ns t - dur_ns d in
  if local_in_range l then Some (mkODT l (odt_offset_s t)) else None.

(** [now >= t] on [OffsetDateTime]. *)
Definition odt_geb (a b : OffsetDateTime) : bool := odt_utc_ns b <=? odt_utc_ns a.

(* ------------------------------------------------------------------ *)
(** ** The CRD (crd.rs) *)

Record SasGeneratorSpec := mkSpec {
  storage_account : string;
  container_name : string;
  secret_name : option string;
  sas_ttl_hours : option Z;
  sas_renewal_hours : option Z;
}.

Record SasGeneratorStatus := mkStatus {
  token : option string;
  target_secret : option string;
  generated : option string;
  expiry : option string;
}.

(** [#[derive(Default)]] on [SasGeneratorStatus]. *)
Definition status_default : SasGeneratorStatus := mkStatus None None None None.

(** The object metadata the code reads: name, namespace and the uid that
    [controller_owner_ref] needs. *)
Record ObjectMeta := mkMeta {
  meta_name : option string;
  meta_namespace : option string;
  meta_uid : option string;
}.

Record SasGenerator := mkSasGenerator {
  metadata : ObjectMeta;
  spec : SasGeneratorSpec;
  status : option SasGeneratorStatus;
}.

Record ContextData := mkContext {
  ctx_sas_renewal_hours : Z;
  ctx_sas_ttl_hours : Z;
}.

(** [SasGenerator::target_secret_name]. *)
Definition target_secret_name (g : SasGenerator) (override_name : option string) : string :=
  match override_name with
  | Some name => name
  | None =>
      match secret_name (spec g) with
      | Some name => name
      | None =>
          ("volsync-" ++ storage_account (spec g) ++ "-" ++ container_name (spec g))%string
      end
  end.

(* ------------------------------------------------------------------ *)
(** ** Rendering RFC3339 (the [time] crate's [Rfc3339] formatter) *)

(** Days since 1970-01-01 to a proleptic Gregorian (year, month, day). *)
Definition civil_from_days (z0 : Z) : Z * Z * Z :=
  let z := z0 + 719468 in
  let era := z / 146097 in
  let doe := z - era * 146097 in
  let yoe := (doe - doe / 1460 + doe / 36524 - doe / 146096) / 365 in
  let y := yoe + era * 400 in
  let doy := doe - (365 * yoe + yoe / 4 - yoe / 100) in
  let mp := (5 * doy + 2) / 153 in
  let d := doy - (153 * mp + 2) / 5 + 1 in
  let m := if mp <? 10 then mp + 3 else mp - 9 in
  (if m <=? 2 then y + 1 else y, m, d).

Definition digit_char (n : Z) : Ascii.ascii := Ascii.ascii_of_nat (48 + Z.to_nat n).

(** The last [w] decimal digits of [n >= 0], zero padded. *)
Fixpoint pad_zero (w : nat) (n : Z) : string :=
  match w with
  | O => EmptyString
  | S w' => (pad_zero w' (n / 10) ++ String (digit_char (n mod 10)) EmptyString)%string
  end.

(** The fraction written after the seconds: nine digits with the trailing
    zeros removed, nothing when the nanosecond is 0. *)
Fixpoint trim_fraction (w : nat) (n : Z) : string :=
  match w with
  | O => EmptyString
  | S w' => if (n mod 10 =? 0) then trim_fraction w' (n / 10) else pad_zero w n
  end.

(** [OffsetDateTime::format(&Rfc3339)]: [None] is the formatting error for a
    year outside 0..=9999 or an offset with a seconds component. *)
Definition Rfc3339_format (t : OffsetDateTime) : option string :=
  let l := odt_local_ns t in
  let secs := l / NS_PER_SEC in
  let nanos := l mod NS_PER_SEC in
  let days := secs / 86400 in
  let sod := secs mod 86400 in
  let '(y, mo, d) := civil_from_days days in
  let off := odt_offset_s t in
  if negb ((0 <=? y) && (y <=? 9999)) then None
  else if negb (off mod 60 =? 0) then None
  else
    let frac := if nanos =? 0 then EmptyString
                else ("." ++ trim_fraction 9 nanos)%string in
    let sign := if Z.ltb off 0 then "-"%string else "+"%string in
    let oh := Z.abs off / 3600 in
    let om := (Z.abs off / 60) mod 60 in
    let offs := if Z.eqb off 0 then "Z"%string
                else (sign ++ pad_zero 2 oh ++ ":" ++ pad_zero 2 om)%string in
    let hh := sod / 3600 in
    let mi := (sod / 60) mod 60 in
    let ss := sod mod 60 in
    Some (pad_zero 4 y ++ "-" ++ pad_zero 2 mo ++ "-" ++ pad_zero 2 d ++ "T"
          ++ pad_zero 2 hh ++ ":" ++ pad_zero 2 mi ++ ":"
          ++ pad_zero 2 ss ++ frac ++ offs)%string.

(** Modelled from the spec: [crate::utils::format_rfc3339], imported by
    reconcile.rs, is missing from src/src/utils.rs. The spec says the status
    carries the timestamps "rendered as RFC3339"; the formatter above is
    used, and the empty string stands for the formatting error that the spec
    does not describe. *)
Definition format_rfc3339 (t : OffsetDateTime) : string :=
  match Rfc3339_format t with Some s => s | None => EmptyString end.

(* ------------------------------------------------------------------ *)
(** ** Errors, requests and the effect monad *)

(** [anyhow::Error]: the chain of messages, outermost context first;
    [Display] prints the outermost one only. *)
Definition AnyError := list string.

Definition anyhow_to_string (e : AnyError) : string :=
  match e with m :: _ => m | [] => EmptyString end.

(** [kube::Error]: an API status with its HTTP code, or any other failure. *)
Inductive KubeError :=
| KubeApi (code : Z) (message : string)
| KubeOther (message : string).

Definition kube_error_to_string (e : KubeError) : string :=
  match e with
  | KubeApi _ m => ("ApiError: " ++ m)%string
  | KubeOther m => m
  end.

Inductive ReconcileError :=
| Kube (e : KubeError)
| Azure (msg : string)
| CrdApply (msg : string).

Inductive Result (T E : Type) := Ok (t : T) | Err (e : E).
Arguments Ok {T E} t.
Arguments Err {T E} e.

(** [kube::runtime::controller::Action]: the requeue delay in seconds. *)
Inductive Action := Requeue (secs : Z).

Inductive Level := Debug | Info | Warn | Error.

(** [k8s_openapi] [OwnerReference], the fields [controller_owner_ref] sets. *)
Record OwnerReference := mkOwnerRef {
  or_api_version : string;
  or_kind : string;
  or_name : string;
  or_uid : string;
  or_controller : option bool;
}.

(** The [Secret] object as ensure_secret builds it. *)
Record Secret := mkSecret {
  sec_name : option string;
  sec_namespace : option string;
  sec_labels : option (gmap string string);
  sec_annotations : option (gmap string string);
  sec_owner_references : option (list OwnerReference);
  sec_string_data : option (gmap string string);
}.

(** [kube::api::PatchParams]: field manager and force flag. *)
Record PatchParams := mkPatchParams { pp_field_manager : option string; pp_force : bool }.

(** [PatchParams::apply(manager).force()]. *)
Definition PatchParams_apply_force (manager : string) : PatchParams :=
  mkPatchParams (Some manager) true.

(** Everything the controller sends to the outside, and its log lines. *)
Inductive Event :=
| EvLog (lvl : Level) (msg : string)
| EvGenerateClient (attempt : nat) (start expiry : OffsetDateTime)
| EvSleep (ms : Z)
| EvGetSecret (ns name : string)
| EvCreateSecret (ns : string) (s : Secret)
| EvPatchSecret (ns name : string) (pp : PatchParams) (s : Secret)
| EvPatchStatus (ns name : string) (pp : PatchParams) (obj : SasGenerator).

(** The answers of the outside world during one reconciliation. The clock
    is read as one instant. [w_attempt k] is the result of the [k]-th call
    of [generate_client] (delegation key, then signature); [w_jitter k d]
    is [jitter(d)] applied to the [k]-th retry wait of [d] milliseconds. *)
Record World := mkWorld {
  w_now_utc : OffsetDateTime;
  w_env : string -> option string;
  w_attempt : nat -> Result string AnyError;
  w_jitter : nat -> Z -> Z;
  w_get_secret : Result unit KubeError;
  w_create_secret : Result unit KubeError;
  w_patch_secret : Result unit KubeError;
  w_patch_status : Result unit KubeError;
}.

Inductive Outcome (E A : Type) := Done (a : A) | Fail (e : E) | Panic (msg : string).
Arguments Done {E A} a.
Arguments Fail {E A} e.
Arguments Panic {E A} msg.

Definition M (E A : Type) : Type := World -> list Event -> Outcome E A * list Event.

Definition ret {E A} (a : A) : M E A := fun _ tr => (Done a, tr).

Definition bind {E A B} (m : M E A) (k : A -> M E B) : M E B :=
  fun w tr =>
    match m w tr with
    | (Done a, tr') => k a w tr'
    | (Fail e, tr') => (Fail e, tr')
    | (Panic s, tr') => (Panic s, tr')
    end.

#[global] Instance M_ret E : MRet (M E) := fun A a => ret a.
#[global] Instance M_bind E : MBind (M E) := fun A B k m => bind m k.

Definition emit {E} (ev : Event) : M E unit := fun _ tr => (Done tt, tr ++ [ev]).
Definition log {E} (lvl : Level) (msg : string) : M E unit := emit (EvLog lvl msg).
Definition throw {E A} (e : E) : M E A := fun _ tr => (Fail e, tr).
Definition panic {E A} (msg : string) : M E A := fun _ tr => (Panic msg, tr).
Definition ask {E} : M E World := fun w tr => (Done w, tr).

(** [?] with an error conversion ([map_err], [From], [.context]). *)
Definition map_err {E1 E2 A} (f : E1 -> E2) (m : M E1 A) : M E2 A :=
  fun w tr =>
    match m w tr with
    | (Done a, tr') => (Done a, tr')
    | (Fail e, tr') => (Fail (f e), tr')
    | (Panic s, tr') => (Panic s, tr')
    end.

Definition with_context {A} (msg : string) (m : M AnyError A) : M AnyError A :=
  map_err (fun e => msg :: e) m.

(** [.expect(msg)] / [.unwrap()] on an [Option]. *)
Definition expect {E A} (o : option A) (msg : string) : M E A :=
  match o with Some a => ret a | None => panic msg end.

(** A request whose answer comes from the world. *)
Definition request {E A} (ev : Event) (answer : World -> Result A E) : M E A :=
  fun w tr =>
    match answer w with
    | Ok a => (Done a, tr ++ [ev])
    | Err e => (Fail e, tr ++ [ev])
    end.

(** [OffsetDateTime::now_utc()]. *)
Definition now_utc {E} : M E OffsetDateTime := w ← ask; ret (w_now_utc w).

(* ------------------------------------------------------------------ *)
(** ** tokio-retry ([ExponentialBackoff], [Retry::spawn]) *)

Definition U64_MAX : Z := 2 ^ 64 - 1.

(** [u64::checked_mul] on non-negative arguments. *)
Definition u64_checked_mul (a b : Z) : option Z :=
  if a * b <=? U64_MAX then Some (a * b) else None.

(** [tokio_retry::strategy::ExponentialBackoff]; delays in milliseconds. *)
Record ExponentialBackoff := mkEB {
  eb_current : Z;
  eb_base : Z;
  eb_factor : Z;
  eb_max_delay : option Z;
}.

Definition ExponentialBackoff_from_millis (base : Z) : ExponentialBackoff :=
  mkEB base base 1 None.

Definition ExponentialBackoff_factor (factor : Z) (s : ExponentialBackoff) : ExponentialBackoff :=
  mkEB (eb_current s) (eb_base s) factor (eb_max_delay s).

Definition ExponentialBackoff_max_delay (ms : Z) (s : ExponentialBackoff) : ExponentialBackoff :=
  mkEB (eb_current s) (eb_base s) (eb_factor s) (Some ms).

(** [Iterator::next]: the delay is [current * factor]; past [max_delay] the
    cap is returned and the state is left as it is; otherwise [current] is
    multiplied by [base]. *)
Definition ExponentialBackoff_next (s : ExponentialBackoff) : Z * ExponentialBackoff :=
  let duration :=
    match u64_checked_mul (eb_current s) (eb_factor s) with Some d => d | None => U64_MAX end in
  let stepped :=
    mkEB (match u64_checked_mul (eb_current s) (eb_base s) with Some n => n | None => U64_MAX end)
         (eb_base s) (eb_factor s) (eb_max_delay s) in
  match eb_max_delay s with
  | Some m => if m <? duration then (m, s) else (duration, stepped)
  | None => (duration, stepped)
  end.

(** [.take(n)] of the (infinite) iterator. *)
Fixpoint ExponentialBackoff_take (n : nat) (s : ExponentialBackoff) : list Z :=
  match n with
  | O => []
  | S n' => let '(d, s') := ExponentialBackoff_next s in d :: ExponentialBackoff_take n' s'
  end.

(** [Retry::spawn(strategy.map(jitter), action)]: run the action; on an
    error take the next delay, or return the error when the strategy is
    exhausted; sleep the jittered delay and run the action again. [k]
    counts the attempts made so far. *)
Fixpoint retry_spawn {A} (strategy : list Z) (k : nat) (action : nat -> M AnyError A)
    : M AnyError A :=
  fun w tr =>
    match action k w tr with
    | (Fail e, tr') =>
        match strategy with
        | [] => (Fail e, tr')
        | d :: rest => retry_spawn rest (S k) action w (tr' ++ [EvSleep (w_jitter w k d)])
        end
    | o => o
    end.

(* ------------------------------------------------------------------ *)
(** ** Issuing the SAS token (sas.rs); [debug!] lines are not modelled *)

(** [std::env::var]. *)
Definition env_var (key : string) : M AnyError string :=
  w ← ask;
  match w_env w key with
  | Some v => ret v
  | None => throw ["environment variable not found"%string]
  end.

(** [create_credential]: the two required variables; the token path has a
    default and the authority URL is a constant that parses. *)
Definition create_credential : M AnyError unit :=
  _ ← with_context "AZURE_CLIENT_ID env var missing" (env_var "AZURE_CLIENT_ID");
  _ ← with_context "AZURE_TENANT_ID env var missing" (env_var "AZURE_TENANT_ID");
  ret tt.

(** [generate_client]: one remote call (delegation key, then signature) for
    the window [start, expiry]; the answer of attempt [k] comes from the
    world. *)
Definition generate_client (k : nat) (start expiry : OffsetDateTime) : M AnyError string :=
  request (EvGenerateClient k start expiry) (fun w => w_attempt w k).

(** The closure given to [Retry::spawn]. *)
Definition sas_attempt (start expiry : OffsetDateTime) (k : nat) : M AnyError string :=
  fun w tr =>
    match generate_client k start expiry w tr with
    | (Done t, tr') => (Done t, tr' ++ [EvLog Info "SAS token generated successfully on this attempt"])
    | (Fail e, tr') => (Fail e, tr' ++ [EvLog Warn "SAS generation failed; retrying..."])
    | o => o
    end.

(** [ExponentialBackoff::from_millis(500).factor(2).max_delay(30 s).take(5)]. *)
Definition retry_strategy : list Z :=
  ExponentialBackoff_take 5
    (ExponentialBackoff_max_delay 30000
       (ExponentialBackoff_factor 2 (ExponentialBackoff_from_millis 500))).

(** [generate_container_sas(account, container, expiry_hours)]. *)
Definition generate_container_sas (account container : string) (expiry_hours : Z)
    : M AnyError (string * OffsetDateTime) :=
  start ← now_utc;
  d ← expect (Duration_hours expiry_hours) "overflow constructing `time::Duration`";
  expiry ← expect (odt_checked_add start d) "resulting value is out of range";
  log Info "Starting SAS token generation";;
  with_context "Failed to create Azure WorkloadIdentityCredential" create_credential;;
  sas_token ← with_context "Failed to generate SAS token after all retries"
                (retry_spawn retry_strategy 0 (sas_attempt start expiry));
  log Info "SAS token generation completed successfully";;
  ret (sas_token, expiry).

(** Modelled from the spec: [SasTokenInfo] and the four-argument
    [generate_container_sas(account, container, ttl_hours, now)] that
    reconcile.rs calls are missing from src/ (src/src/sas.rs has the
    three-argument version above, which reads the clock itself and returns
    [(token, expiry)]). The spec's TokenInfo is "token value, issuance time,
    expiry time (issuance time + TTL-hours)": the token and expiry are the
    ones of sas.rs and the issuance time is the instant [now] passed in
    (the clock of a reconciliation is one instant, so it is also the
    [start] of sas.rs). *)
Record SasTokenInfo := mkTokenInfo {
  ti_token : string;
  ti_generated : OffsetDateTime;
  ti_expiry : OffsetDateTime;
}.

Definition generate_token_info (account container : string) (ttl_hours : Z)
    (now : OffsetDateTime) : M AnyError SasTokenInfo :=
  '(tok, exp) ← generate_container_sas account container ttl_hours;
  ret (mkTokenInfo tok now exp).

(* ------------------------------------------------------------------ *)
(** ** Publishing the Secret (secret.rs) and the status (status.rs) *)

(** [Option::unwrap_or] and [Option::unwrap_or_default] on strings. *)
Definition unwrap_or {A} (o : option A) (d : A) : A :=
  match o with Some a => a | None => d end.

Definition unwrap_or_default (o : option string) : string := unwrap_or o EmptyString.

(** [BTreeMap::from([(k1, v1), (k2, v2), ...])]: inserted in order. *)
Definition btreemap_from (kvs : list (string * string)) : gmap string string :=
  fold_left (fun m kv => <[kv.1 := kv.2]> m) kvs ∅.

Definition secret_labels (sp : SasGeneratorSpec) : gmap string string :=
  btreemap_from [("sas.azure.com/account", storage_account sp);
                 ("sas.azure.com/container", container_name sp)]%string.

Definition secret_annotations (st : SasGeneratorStatus) : gmap string string :=
  btreemap_from [("sas.azure.com/generated", unwrap_or_default (generated st));
                 ("sas.azure.com/expires", unwrap_or_default (expiry st))]%string.

Definition secret_data (sp : SasGeneratorSpec) (tok : option string) : gmap string string :=
  btreemap_from [("sas_token", unwrap_or_default tok);
                 ("account", storage_account sp);
                 ("container", container_name sp)]%string.

(** [ResourceExt::name_any] and [namespace]. *)
Definition name_any (g : SasGenerator) : string := unwrap_or_default (meta_name (metadata g)).

(** [Resource::controller_owner_ref(&())]: [None] without a name or uid. *)
Definition controller_owner_ref (g : SasGenerator) : option OwnerReference :=
  match meta_name (metadata g), meta_uid (metadata g) with
  | Some n, Some u => Some (mkOwnerRef "sas.azure.com/v1alpha1" "SasGenerator" n u (Some true))
  | _, _ => None
  end.

(** Run a fallible request and get its [Result] back ([match api.get(..)]). *)
Definition try_result {E1 E2 A} (m : M E1 A) : M E2 (Result A E1) :=
  fun w tr =>
    match m w tr with
    | (Done a, tr') => (Done (Ok a), tr')
    | (Fail e, tr') => (Done (Err e), tr')
    | (Panic s, tr') => (Panic s, tr')
    end.

(** The Secret [ensure_secret] builds for a resource. *)
Definition desired_secret (g : SasGenerator) (oref : OwnerReference) : Secret :=
  let ns := unwrap_or (meta_namespace (metadata g)) "default"%string in
  let st := unwrap_or (status g) status_default in
  mkSecret (Some (target_secret_name g None)) (Some ns)
           (Some (secret_labels (spec g))) (Some (secret_annotations st))
           (Some [oref]) (Some (secret_data (spec g) (token st))).

(** [ensure_secret(sasgen, ctx)] of src/src/secret.rs. *)
Definition ensure_secret (g : SasGenerator) (ctx : ContextData) : M ReconcileError unit :=
  let ns := unwrap_or (meta_namespace (metadata g)) "default"%string in
  let secret_name := target_secret_name g None in
  log Info "Ensuring Secret exists or is up to date";;
  oref ← expect (controller_owner_ref g) "called `Option::unwrap()` on a `None` value";
  let secret := desired_secret g oref in
  got ← try_result (request (EvGetSecret ns secret_name) w_get_secret);
  match got with
  | Ok _ =>
      map_err Kube (request (EvPatchSecret ns secret_name (PatchParams_apply_force "sas-operator") secret)
                            w_patch_secret);;
      log Info "Secret updated successfully"
  | Err (KubeApi code msg) =>
      if Z.eqb code 404 then
        log Warn "Secret not found; creating new one";;
        map_err Kube (request (EvCreateSecret ns secret) w_create_secret);;
        log Info "Secret created successfully"
      else
        log Warn "Failed to apply Secret changes";;
        throw (Kube (KubeApi code msg))
  | Err e =>
      log Warn "Failed to apply Secret changes";;
      throw (Kube e)
  end.

(** [update_crd_status(sasgen, ctx, status)] of src/src/status.rs. *)
Definition update_crd_status (g : SasGenerator) (ctx : ContextData) (st : SasGeneratorStatus)
    : M ReconcileError unit :=
  let ns := unwrap_or (meta_namespace (metadata g)) "default"%string in
  let name := name_any g in
  let patch := mkSasGenerator (mkMeta (Some name) (meta_namespace (metadata g)) None)
                              (spec g) (Some st) in
  r ← try_result (request (EvPatchStatus ns name (PatchParams_apply_force "sas-operator") patch)
                          w_patch_status);
  match r with
  | Ok _ => log Info "CRD status successfully updated"
  | Err e =>
      log Warn "Failed to update CRD status";;
      throw (CrdApply ("Failed to patch CRD status: " ++ kube_error_to_string e))
  end.

(** Modelled from the spec: the resource store is an external collaborator.
    A create stores the object; a forced server-side apply carrying the full
    desired Secret leaves the stored Secret equal to it (spec glossary). *)
Definition store_apply (ev : Event) (stored : option Secret) : option Secret :=
  match ev with
  | EvCreateSecret _ s => Some s
  | EvPatchSecret _ _ pp s => if pp_force pp then Some s else stored
  | _ => stored
  end.

(* ------------------------------------------------------------------ *)
(** ** The reconciler (reconcile.rs) *)

(** [build_status]. *)
Definition build_status (ti : SasTokenInfo) (secret_name : string) : SasGeneratorStatus :=
  mkStatus (Some (ti_token ti)) (Some secret_name)
           (Some (format_rfc3339 (ti_generated ti))) (Some (format_rfc3339 (ti_expiry ti))).

(** [error_policy]: logs and requeues. *)
Definition error_policy (obj : SasGenerator) (err : ReconcileError) (ctx : ContextData)
    : M ReconcileError Action :=
  log Error "Reconcile failed";;
  ret (Requeue 300).

(** [SasGenerator::log_spec]. *)
Definition log_spec {E} (g : SasGenerator) : M E unit :=
  log Info "Loaded SasGenerator spec and status".

Section Controller.

(** [OffsetDateTime::parse(_, &Rfc3339)] of the [time] crate. *)
Variable Rfc3339_parse : string -> option OffsetDateTime.

(** [should_regenerate]. *)
Definition should_regenerate {E} (now : OffsetDateTime) (st : option SasGeneratorStatus)
    (renewal_hours : Z) : M E bool :=
  match match st with Some s => expiry s | None => None end with
  | None => ret true
  | Some e =>
      match Rfc3339_parse e with
      | Some parsed =>
          d ← expect (Duration_hours renewal_hours) "overflow constructing `time::Duration`";
          t ← expect (odt_checked_sub parsed d) "resulting value is out of range";
          ret (odt_geb now t)
      | None =>
          log Warn "Failed to parse expiry; will regenerate SAS token";;
          ret true
      end
  end.

(** [reconcile]. The call [ensure_secret(&sasgen, &ctx, &target_secret,
    labels, annotations)] is to the [ensure_secret(sasgen, ctx)] of
    src/src/secret.rs, which has no parameter for the target name, the
    labels or the annotations and derives all three from [sasgen]. *)
Definition reconcile (g : SasGenerator) (ctx : ContextData) : M ReconcileError Action :=
  log_spec (E := ReconcileError) g;;
  now ← now_utc (E := ReconcileError);
  let renewal_hours := unwrap_or (sas_renewal_hours (spec g)) (ctx_sas_renewal_hours ctx) in
  let ttl_hours := unwrap_or (sas_ttl_hours (spec g)) (ctx_sas_ttl_hours ctx) in
  bind (should_regenerate now (status g) renewal_hours) (fun due : bool =>
  (if due then
     token_info ← map_err (fun e => Azure (anyhow_to_string e))
                    (generate_token_info (storage_account (spec g)) (container_name (spec g))
                                         ttl_hours now);
     let target_secret := target_secret_name g None in
     let new_status := build_status token_info target_secret in
     log Info "Generated new SAS token";;
     ensure_secret g ctx;;
     update_crd_status g ctx new_status
   else ret tt : M ReconcileError unit);;
  ret (Requeue 15)).

End Controller.

(* ------------------------------------------------------------------ *)
(** ** Reading a trace *)

(** The windows [(attempt, start, expiry)] of the issuance calls. *)
Fixpoint attempt_windows (tr : list Event) : list (nat * OffsetDateTime * OffsetDateTime) :=
  match tr with
  | [] => []
  | EvGenerateClient k s e :: tr' => (k, s, e) :: attempt_windows tr'
  | _ :: tr' => attempt_windows tr'
  end.

(** The retry waits, in milliseconds. *)
Fixpoint sleeps (tr : list Event) : list Z :=
  match tr with
  | [] => []
  | EvSleep ms :: tr' => ms :: sleeps tr'
  | _ :: tr' => sleeps tr'
  end.

Definition is_log (ev : Event) : bool :=
  match ev with EvLog _ _ => true | _ => false end.

(** Writes to the Secret or to the CRD status. *)
Definition is_write (ev : Event) : bool :=
  match ev with
  | EvCreateSecret _ _ | EvPatchSecret _ _ _ _ | EvPatchStatus _ _ _ _ => true
  | _ => false
  end.

(** The requests sent to the outside (everything but log lines). *)
Definition api_events (tr : list Event) : list Event := List.filter (fun ev => negb (is_log ev)) tr.

(** The Secret a create or a patch request sends. *)
Definition written_secret (ev : Event) : option Secret :=
  match ev with EvCreateSecret _ s | EvPatchSecret _ _ _ s => Some s | _ => None end.

(** The outcome of a Kubernetes write as [?] propagates it. *)
Definition kube_outcome (r : Result unit KubeError) : Outcome ReconcileError unit :=
  match r with Ok _ => Done tt | Err e => Fail (Kube e) end.

(** A computation that only appends to the trace it is given. *)
Definition frame {E A} (m : M E A) : Prop :=
  forall w tr, m w tr = (fst (m w []), tr ++ snd (m w [])).

(* ------------------------------------------------------------------ *)
(** ** Concrete inputs *)

(** 2023-11-14T22:13:20Z. *)
Definition t0 : OffsetDateTime := mkODT (1700000000 * NS_PER_SEC) 0.

Definition parse_const (t : OffsetDateTime) : string -> option OffsetDateTime := fun _ => Some t.
Definition parse_none : string -> option OffsetDateTime := fun _ => None.

Definition env_ok : string -> option string := fun _ => Some "set"%string.

(** Every issuance attempt times out; the Secret exists. *)
Definition world_all_fail : World :=
  mkWorld t0 env_ok
    (fun _ => Err ["Failed to fetch user delegation key from Azure"; "timeout"]%string)
    (fun _ d => d / 2) (Ok tt) (Ok tt) (Ok tt) (Ok tt).

(** Issuance answers token [TOK] at once; the Secret does not exist yet. *)
Definition world_first_issue : World :=
  mkWorld t0 env_ok (fun _ => Ok "TOK"%string) (fun _ d => d)
    (Err (KubeApi 404 "secrets not found")) (Ok tt) (Ok tt) (Ok tt).

Definition meta0 : ObjectMeta := mkMeta (Some "gen"%string) (Some "ns"%string) (Some "uid-1"%string).

(** A freshly created resource: no status. *)
Definition gen_fresh : SasGenerator :=
  mkSasGenerator meta0 (mkSpec "acct" "cont" None None None) None.

(** A fresh resource asking for a TTL of 0 hours. *)
Definition gen_ttl0 : SasGenerator :=
  mkSasGenerator meta0 (mkSpec "acct" "cont" None (Some 0) None) None.

Definition ctx_default : ContextData := mkContext 24 48.

(** A resource issued a day ago, expiring at [t0 + 10h], renewal window 1h. *)
Definition gen_valid : SasGenerator :=
  mkSasGenerator meta0 (mkSpec "acct" "cont" None None (Some 1))
    (Some (mkStatus (Some "OLD"%string) (Some "volsync-acct-cont"%string)
             (Some "2023-11-13T22:13:20Z"%string) (Some "2023-11-15T08:13:20Z"%string))).

(* ================================================================== *)
(** * The ConfigMap daemon (main.rs) and its helper (utils.rs) *)

(** ** [format_friendly_duration] (utils.rs) *)

(** [time::Duration::whole_seconds]: the seconds, truncated toward zero. *)
Definition Duration_whole_seconds (d : Duration) : Z := Z.quot (dur_ns d) NS_PER_SEC.

(** [format_friendly_duration]; [{n}] renders an [i64] in decimal (stdpp's
    [pretty] on [Z]); [/] and [%] on [i64] truncate ([Z.quot], [Z.rem]). *)
Definition format_friendly_duration (d : Duration) : string :=
  let total_seconds := Duration_whole_seconds d in
  if Z.leb total_seconds 0 then "expired"%string
  else
    let hours := Z.quot total_seconds 3600 in
    let minutes := Z.quot (Z.rem total_seconds 3600) 60 in
    if Z.eqb hours 0 then (pretty minutes ++ "m left")%string
    else if Z.eqb minutes 0 then (pretty hours ++ "h left")%string
    else (pretty hours ++ "h " ++ pretty minutes ++ "m left")%string.

(** ** Integer parsing ([str::parse::<i64>], [str::parse::<u64>]) *)

Definition ascii_digit (c : Ascii.ascii) : option Z :=
  let n := Ascii.nat_of_ascii c in
  if (48 <=? n)%nat && (n <=? 57)%nat then Some (Z.of_nat n - 48) else None.

(** The digits of [s] read after [acc]; [None] at a non-digit. *)
Fixpoint digits_value (acc : Z) (s : string) : option Z :=
  match s with
  | EmptyString => Some acc
  | String c s' =>
      match ascii_digit c with
      | Some d => digits_value (acc * 10 + d) s'
      | None => None
      end
  end.

(** [from_str_radix(src, 10)] of [core::num] for a type with range
    [lo..=hi]: empty input and a lone sign are errors, one leading [+] is
    allowed, and a leading [-] only for signed types. The digits are
    accumulated with checked arithmetic; as every digit moves the value
    away from 0, a step overflows exactly when the final value is out of
    range, which is the check made here. *)
Definition int_from_str (is_signed_ty : bool) (lo hi : Z) (src : string) : option Z :=
  let v :=
    match src with
    | EmptyString => None
    | String c rest =>
        if (Ascii.eqb c "+"%char || Ascii.eqb c "-"%char) && String.eqb rest EmptyString then None
        else if Ascii.eqb c "+"%char then digits_value 0 rest
        else if Ascii.eqb c "-"%char && is_signed_ty then option_map Z.opp (digits_value 0 rest)
        else digits_value 0 src
    end in
  match v with
  | Some n => if (lo <=? n) && (n <=? hi) then Some n else None
  | None => None
  end.

Definition parse_i64 (s : string) : option Z := int_from_str true I64_MIN I64_MAX s.
Definition parse_u64 (s : string) : option Z := int_from_str false 0 U64_MAX s.

(** ** [Config::from_env] *)

Record Config := mkConfig {
  root_cm_name : string;
  validity_hours : Z;
  recheck_hours : Z;
  pull_interval : Z;
}.

(** [parse_env(key, default)]: the variable parsed, or the default when it
    is unset or does not parse. *)
Definition parse_env (parse : string -> option Z) (env : string -> option string)
    (key : string) (default : Z) : Z :=
  match env key with
  | Some v => match parse v with Some n => n | None => default end
  | None => default
  end.

Definition Config_from_env (env : string -> option string) : Result Config AnyError :=
  match env "SA_MAP"%string with
  | None => Err ["environment variable not found"%string]
  | Some root =>
      Ok (mkConfig root (parse_env parse_i64 env "SAS_TTL" 2) (parse_env parse_i64 env "RECHECK" 1)
                   (parse_env parse_u64 env "PULL_INTERVAL" 10))
  end.

(** ** The daemon's effects *)

(** A [ConfigMap], reduced to the fields the daemon reads or writes. *)
Record ConfigMap := mkConfigMap {
  cm_name : option string;
  cm_data : option (gmap string string);
}.

(** The outside world of one run of the daemon: the world the issuer sees
    (clock, environment, issuance answers and jitter), and the answers of
    the ConfigMap API by name. *)
Record DWorld := mkDWorld {
  dw_issuer : World;
  dw_get_cm : string -> Result ConfigMap KubeError;
  dw_patch_cm : string -> Result unit KubeError;
}.

Inductive DEvent :=
| DLog (lvl : Level) (msg : string)
| DIssuer (ev : Event)
| DGetCM (name : string)
| DPatchCM (name : string) (pp : PatchParams) (cm : ConfigMap)
| DSpawn (account container : string).

Definition DM (E A : Type) : Type := DWorld -> list DEvent -> Outcome E A * list DEvent.

Definition dret {E A} (a : A) : DM E A := fun _ tr => (Done a, tr).

Definition dbind {E A B} (m : DM E A) (k : A -> DM E B) : DM E B :=
  fun w tr =>
    match m w tr with
    | (Done a, tr') => k a w tr'
    | (Fail e, tr') => (Fail e, tr')
    | (Panic s, tr') => (Panic s, tr')
    end.

#[global] Instance DM_ret E : MRet (DM E) := fun A a => dret a.
#[global] Instance DM_bind E : MBind (DM E) := fun A B k m => dbind m k.

Definition demit {E} (ev : DEvent) : DM E unit := fun _ tr => (Done tt, tr ++ [ev]).
Definition dlog {E} (lvl : Level) (msg : string) : DM E unit := demit (DLog lvl msg).
Definition dthrow {E A} (e : E) : DM E A := fun _ tr => (Fail e, tr).
Definition dexpect {E A} (o : option A) (msg : string) : DM E A :=
  match o with Some a => dret a | None => fun _ tr => (Panic msg, tr) end.
Definition drequest {E A} (ev : DEvent) (answer : DWorld -> Result A E) : DM E A :=
  fun w tr =>
    match answer w with
    | Ok a => (Done a, tr ++ [ev])
    | Err e => (Fail e, tr ++ [ev])
    end.
Definition dtry {E1 E2 A} (m : DM E1 A) : DM E2 (Result A E1) :=
  fun w tr =>
    match m w tr with
    | (Done a, tr') => (Done (Ok a), tr')
    | (Fail e, tr') => (Done (Err e), tr')
    | (Panic s, tr') => (Panic s, tr')
    end.
Definition dmap_err {E1 E2 A} (f : E1 -> E2) (m : DM E1 A) : DM E2 A :=
  fun w tr =>
    match m w tr with
    | (Done a, tr') => (Done a, tr')
    | (Fail e, tr') => (Fail (f e), tr')
    | (Panic s, tr') => (Panic s, tr')
    end.
Definition dnow {E} : DM E OffsetDateTime := fun w tr => (Done (w_now_utc (dw_issuer w)), tr).

(** A run of the issuer inside the daemon: its events are recorded in order. *)
Definition issuer {E A} (m : M E A) : DM E A :=
  fun w tr => let r := m (dw_issuer w) [] in (fst r, tr ++ map DIssuer (snd r)).

(** ** [check_ttl], [process_storage_account], [pull_accounts] *)

Inductive RegenerationCheck := Valid (remaining : Duration) | NeedsRegen.

Section Daemon.

Variable Rfc3339_parse : string -> option OffsetDateTime.

(** [check_ttl(api, cm_name, recheck_hours)]. [expiry - now] is exact;
    [&&] evaluates [Duration::hours] only for a positive remainder. *)
Definition check_ttl (cm_name0 : string) (recheck_hours0 : Z) : DM AnyError RegenerationCheck :=
  got ← dtry (E2 := AnyError) (drequest (DGetCM cm_name0) (fun w => dw_get_cm w cm_name0));
  match got with
  | Ok cm =>
      match match cm_data cm with Some d => d !! "expiry"%string | None => None end with
      | Some expiry_str =>
          match Rfc3339_parse expiry_str with
          | Some expiry0 =>
              now ← dnow;
              let remaining := odt_utc_ns expiry0 - odt_utc_ns now in
              if Z.ltb 0 remaining then
                h ← dexpect (Duration_hours recheck_hours0) "overflow constructing `time::Duration`";
                if Z.ltb (dur_ns h) remaining then dret (Valid (mkDuration remaining))
                else dret NeedsRegen
              else dret NeedsRegen
          | None => dret NeedsRegen
          end
      | None => dret NeedsRegen
      end
  | Err _ => dret NeedsRegen
  end.

(** The data map [process_storage_account] writes. *)
Definition configmap_data (sas_token account container expiry_s : string) : gmap string string :=
  <["container" := container]> (<["account" := account]>
    (<["expiry" := expiry_s]> (<["sas_token" := sas_token]> ∅)))%string.

(** [expiry.format(&Rfc3339)?]; the text of the [time] crate's format error
    is not modelled. *)
Definition format_or_fail (t : OffsetDateTime) : DM AnyError string :=
  match Rfc3339_format t with
  | Some s => dret s
  | None => dthrow ["RFC3339 format error"%string]
  end.

(** [process_storage_account(api, account, container, cfg)]. *)
Definition process_storage_account (account container : string) (cfg : Config) : DM AnyError unit :=
  let cm_name0 := (account ++ "-" ++ container)%string in
  chk ← check_ttl cm_name0 (recheck_hours cfg);
  match chk with
  | Valid _ => dlog Info "Token still valid"
  | NeedsRegen =>
      dlog Info "Generating new SAS token...";;
      '(sas_token, expiry0) ← issuer (generate_container_sas account container (validity_hours cfg));
      expiry_s ← format_or_fail expiry0;
      let cm := mkConfigMap (Some cm_name0) (Some (configmap_data sas_token account container expiry_s)) in
      dmap_err (fun e => [kube_error_to_string e])
        (drequest (DPatchCM cm_name0 (mkPatchParams (Some "sas-generator"%string) false) cm)
                  (fun w => dw_patch_cm w cm_name0));;
      _ ← format_or_fail expiry0;
      dlog Info "SAS token updated"
  end.

End Daemon.

(** One [tokio::spawn] per entry; the tasks run on their own, so only their
    spawning is part of [pull_accounts]. *)
Fixpoint spawn_all (entries : list (string * string)) : DM AnyError unit :=
  match entries with
  | [] => dret tt
  | (a, c) :: rest => demit (DSpawn a c);; spawn_all rest
  end.

(** [pull_accounts(api, cfg)]. [BTreeMap] iterates in key order; the
    entries are taken here in [map_to_list] order, and the statements
    below only use the multiset of entries. *)
Definition pull_accounts (cfg : Config) : DM AnyError unit :=
  got ← dtry (E2 := AnyError) (drequest (DGetCM (root_cm_name cfg)) (fun w => dw_get_cm w (root_cm_name cfg)));
  match got with
  | Err _ => dlog Warn "Failed to fetch root ConfigMap"
  | Ok root => spawn_all (map_to_list (unwrap_or (cm_data root) ∅))
  end.

(** The ConfigMap writes of a daemon trace. *)
Definition cm_writes (tr : list DEvent) : list (string * ConfigMap) :=
  omap (fun ev => match ev with DPatchCM n _ cm => Some (n, cm) | _ => None end) tr.

(** The issuance calls of a daemon trace. *)
Definition issuer_calls (tr : list DEvent) : list (nat * OffsetDateTime * OffsetDateTime) :=
  attempt_windows (omap (fun ev => match ev with DIssuer e => Some e | _ => None end) tr).

(** The tasks a daemon trace spawns. *)
Definition spawned (tr : list DEvent) : list (string * string) :=
  omap (fun ev => match ev with DSpawn a c => Some (a, c) | _ => None end) tr.

(** The digits at the head of [s] read after [acc], and what follows them. *)
Fixpoint read_digits (acc : Z) (s : string) : Z * string :=
  match s with
  | EmptyString => (acc, EmptyString)
  | String c s' =>
      match ascii_digit c with
      | Some d => read_digits (acc * 10 + d) s'
      | None => (acc, s)
      end
  end.

(** ** Reading back and example inputs *)

(** Reading a [format_friendly_duration] text back into (hours, minutes). *)
Definition friendly_decode (s : string) : option (Z * Z) :=
  let '(a, t) := read_digits 0 s in
  if String.eqb t "m left" then Some (0, a)
  else if String.eqb t "h left" then Some (a, 0)
  else match t with
       | String c1 (String c2 r) =>
           if Ascii.eqb c1 "h"%char && Ascii.eqb c2 " "%char then
             let '(b, t') := read_digits 0 r in
             if String.eqb t' "m left" then Some (a, b) else None
           else None
       | _ => None
       end.

(** An environment with every variable of [Config::from_env] set. *)
Definition env_example : string -> option string := fun k =>
  if String.eqb k "SA_MAP" then Some "accounts"%string
  else if String.eqb k "SAS_TTL" then Some (pretty 24)
  else if String.eqb k "RECHECK" then Some (pretty (-3))
  else if String.eqb k "PULL_INTERVAL" then Some (pretty (-1))
  else None.

(** [cm.data.as_ref().and_then(|d| d.get("expiry"))]. *)
Definition cm_expiry (c : ConfigMap) : option string :=
  match cm_data c with Some d => d !! "expiry"%string | None => None end.

(** A daemon world: a root ConfigMap listing one account, a stored
    ConfigMap for it, every other get answered 404, every patch accepted. *)
Definition dworld_example : DWorld :=
  mkDWorld world_first_issue
    (fun name =>
       if String.eqb name "accounts" then Ok (mkConfigMap (Some "accounts"%string) (Some (<["acct" := "cont"]> ∅)))%string
       else if String.eqb name "acct-cont" then Ok (mkConfigMap (Some name) (Some (<["expiry" := "later"]> ∅)))%string
       else Err (KubeApi 404 "configmaps not found"))
    (fun _ => Ok tt).

(** The daemon configuration with the defaults of [Config::from_env]. *)
Definition cfg_example : Config := mkConfig "accounts" 2 1 10.

(** Ten hours after [t0]. *)
Definition t_later : OffsetDateTime := mkODT ((1700000000 + 36000) * NS_PER_SEC) 0.

(** The CRD status patches and the Secret writes of a trace. *)
Definition status_patch (ev : Event) : option SasGenerator :=
  match ev with EvPatchStatus _ _ _ o => Some o | _ => None end.

Definition status_patches (tr : list Event) : list SasGenerator := omap status_patch tr.

Definition secret_writes (tr : list Event) : list Secret := omap written_secret tr.

(** Issuance fails twice and succeeds on the third attempt. *)
Definition world_third_attempt : World :=
  mkWorld t0 env_ok
    (fun k => if Nat.ltb k 2 then Err ["timeout"]%string else Ok "TOK"%string) (fun _ d => d)
    (Ok tt) (Ok tt) (Ok tt) (Ok tt).

(* ================================================================== *)
(** * Proofs *)

Create HintDb frame.

Lemma frame_ret {E A} (a : A) : frame (E := E) (ret a).
Proof. intros w tr. unfold ret. simpl. by rewrite app_nil_r. Qed.

Lemma frame_emit {E} ev : frame (E := E) (emit ev).
Proof. intros w tr. unfold emit. simpl. reflexivity. Qed.

Lemma frame_log {E} lvl msg : frame (E := E) (log lvl msg).
Proof. apply frame_emit. Qed.

Lemma frame_throw {E A} (e : E) : frame (A := A) (throw e).
Proof. intros w tr. unfold throw. simpl. by rewrite app_nil_r. Qed.

Lemma frame_panic {E A} msg : frame (E := E) (A := A) (panic msg).
Proof. intros w tr. unfold panic. simpl. by rewrite app_nil_r. Qed.

Lemma frame_ask {E} : frame (E := E) ask.
Proof. intros w tr. unfold ask. simpl. by rewrite app_nil_r. Qed.

Lemma frame_expect {E A} (o : option A) msg : frame (E := E) (expect o msg).
Proof. destruct o; [apply frame_ret | apply frame_panic]. Qed.

Lemma frame_request {E A} ev (ans : World -> Result A E) : frame (request ev ans).
Proof. intros w tr. unfold request. by destruct (ans w). Qed.

Lemma frame_bind {E A B} (m : M E A) (k : A -> M E B) :
  frame m -> (forall a, frame (k a)) -> frame (bind m k).
Proof.
  intros Hm Hk w tr. unfold bind. rewrite (Hm w tr).
  destruct (m w []) as [o x] eqn:Hx. simpl.
  destruct o as [a|e|s]; simpl; try reflexivity.
  rewrite (Hk a w (tr ++ x)), (Hk a w x). simpl. by rewrite app_assoc.
Qed.

Lemma frame_mbind {E A B} (m : M E A) (k : A -> M E B) :
  frame m -> (forall a, frame (k a)) -> frame (m ≫= k).
Proof. apply frame_bind. Qed.

Lemma frame_map_err {E1 E2 A} (f : E1 -> E2) (m : M E1 A) : frame m -> frame (map_err f m).
Proof.
  intros Hm w tr. unfold map_err. rewrite (Hm w tr).
  by destruct (m w []) as [[a|e|s] x].
Qed.

Lemma frame_try_result {E1 E2 A} (m : M E1 A) : frame m -> frame (try_result (E2 := E2) m).
Proof.
  intros Hm w tr. unfold try_result. rewrite (Hm w tr).
  by destruct (m w []) as [[a|e|s] x].
Qed.

Lemma frame_with_context {A} msg (m : M AnyError A) : frame m -> frame (with_context msg m).
Proof. apply frame_map_err. Qed.

Lemma frame_retry_spawn {A} (l : list Z) (k : nat) (action : nat -> M AnyError A) :
  (forall j, frame (action j)) -> frame (retry_spawn l k action).
Proof.
  intros Ha. revert k. induction l as [|d l IH]; intros k w tr; simpl;
    rewrite (Ha k w tr); destruct (action k w []) as [[a|e|s] x]; simpl; try reflexivity.
  rewrite (IH (S k) w (x ++ [EvSleep (w_jitter w k d)])).
  rewrite IH. simpl. by rewrite !app_assoc.
Qed.

#[local] Hint Resolve frame_ret frame_emit frame_log frame_throw frame_panic frame_ask
  frame_expect frame_request frame_mbind frame_bind frame_map_err frame_try_result
  frame_with_context frame_retry_spawn : frame.

Ltac solve_frame :=
  repeat (match goal with
          | |- forall _, _ => intro
          | |- frame (mbind _ _) => apply frame_mbind
          | |- frame (bind _ _) => apply frame_bind
          | |- frame (map_err _ _) => apply frame_map_err
          | |- frame (with_context _ _) => apply frame_with_context
          | |- frame (try_result _) => apply frame_try_result
          | |- frame (retry_spawn _ _ _) => apply frame_retry_spawn
          | |- frame (match ?x with _ => _ end) => destruct x
          | |- frame (if ?b then _ else _) => destruct b
          | _ => progress cbv zeta
          | _ => solve [eauto with frame]
          end).

Lemma frame_sas_attempt s e k : frame (sas_attempt s e k).
Proof.
  intros w tr. unfold sas_attempt, generate_client, request.
  destruct (w_attempt w k); simpl; rewrite <- ?app_assoc; reflexivity.
Qed.
#[local] Hint Resolve frame_sas_attempt : frame.

Lemma frame_now_utc {E} : frame (E := E) now_utc.
Proof. unfold now_utc. solve_frame. Qed.

Lemma frame_log_spec {E} g : frame (E := E) (log_spec g).
Proof. unfold log_spec. solve_frame. Qed.

Lemma frame_create_credential : frame create_credential.
Proof. unfold create_credential, env_var. solve_frame. Qed.

#[local] Hint Resolve frame_now_utc frame_log_spec frame_create_credential : frame.

Lemma frame_generate_container_sas a c h : frame (generate_container_sas a c h).
Proof. unfold generate_container_sas. solve_frame. Qed.
#[local] Hint Resolve frame_generate_container_sas : frame.

Lemma frame_generate_token_info a c h now : frame (generate_token_info a c h now).
Proof. unfold generate_token_info. solve_frame. Qed.

Lemma frame_ensure_secret g ctx : frame (ensure_secret g ctx).
Proof. unfold ensure_secret. solve_frame. Qed.

Lemma frame_update_crd_status g ctx st : frame (update_crd_status g ctx st).
Proof. unfold update_crd_status. solve_frame. Qed.

Lemma frame_should_regenerate {E} parse now st r : frame (E := E) (should_regenerate parse now st r).
Proof. unfold should_regenerate. solve_frame. Qed.

#[local] Hint Resolve frame_generate_token_info frame_ensure_secret frame_update_crd_status
  frame_should_regenerate : frame.

Lemma frame_reconcile parse g ctx : frame (reconcile parse g ctx).
Proof. unfold reconcile. solve_frame. Qed.

(* ------------------------------------------------------------------ *)
(** ** Secret name (crd.rs) *)

(** C10: [target_secret_name] returns the override argument when given,
    else [spec.secretName] when set, else ["volsync-" ++ account ++ "-" ++
    container], which depends on account and container alone. *)
Theorem target_secret_name_resolution (m m' : ObjectMeta) (st st' : option SasGeneratorStatus)
    (a c name : string) (sn : option string) (ttl ren ttl' ren' : option Z) :
  target_secret_name (mkSasGenerator m (mkSpec a c sn ttl ren) st) (Some name) = name /\
  target_secret_name (mkSasGenerator m (mkSpec a c (Some name) ttl ren) st) None = name /\
  target_secret_name (mkSasGenerator m (mkSpec a c None ttl ren) st) None
    = ("volsync-" ++ a ++ "-" ++ c)%string /\
  target_secret_name (mkSasGenerator m (mkSpec a c None ttl ren) st) None
    = target_secret_name (mkSasGenerator m' (mkSpec a c None ttl' ren') st') None.
Proof. repeat split. Qed.

(* ------------------------------------------------------------------ *)
(** ** Expiry policy *)

Section ExpiryPolicy.
Variable parse : string -> option OffsetDateTime.

(** C7: with no status, no expiry, or an expiry that does not parse,
    [should_regenerate] returns [true] whatever [now], the renewal window
    and the other fields are; only the unparseable case logs, a warning. *)
Theorem should_regenerate_fail_open {E} (now : OffsetDateTime) (st : option SasGeneratorStatus)
    (r : Z) (w : World) (tr : list Event) :
  (match st with
   | None => True
   | Some s => match expiry s with None => True | Some x => parse x = None end
   end) ->
  should_regenerate (E := E) parse now st r w tr =
    (Done true,
     tr ++ match st with
           | Some s => match expiry s with
                       | Some _ => [EvLog Warn "Failed to parse expiry; will regenerate SAS token"]
                       | None => []
                       end
           | None => []
           end).
Proof.
  intros H. unfold should_regenerate.
  destruct st as [s|]; [|by rewrite app_nil_r].
  destruct (expiry s) as [x|]; [|by rewrite app_nil_r].
  rewrite H. reflexivity.
Qed.

(** Past a parsed expiry [e]: [Duration::hours(r)] and [e - r hours] either
    panic or give the comparison [now >= e - r hours] on instants. *)
Theorem should_regenerate_parsed {E} (now e : OffsetDateTime) (s : SasGeneratorStatus) (x : string)
    (r : Z) (w : World) (tr : list Event) :
  expiry s = Some x -> parse x = Some e ->
  should_regenerate (E := E) parse now (Some s) r w tr =
    (if negb (i64_in_range (r * 3600)) then Panic "overflow constructing `time::Duration`"
     else if negb (local_in_range (odt_local_ns e - r * 3600 * NS_PER_SEC))
     then Panic "resulting value is out of range"
     else Done (odt_utc_ns e - r * 3600 * NS_PER_SEC <=? odt_utc_ns now), tr).
Proof.
  intros Hx He. unfold should_regenerate. rewrite Hx, He.
  unfold Duration_hours, i64_checked_mul.
  destruct (i64_in_range (r * 3600)); [|reflexivity].
  unfold mbind, M_bind, bind, expect, ret, panic, odt_checked_sub. simpl.
  replace (r * 3600 * NS_PER_SEC) with (r * 3600 * 1000000000) by reflexivity.
  destruct (local_in_range (odt_local_ns e - r * 3600 * 1000000000)); simpl; [|reflexivity].
  unfold odt_geb, odt_utc_ns. simpl. do 3 f_equal. lia.
Qed.

End ExpiryPolicy.

Lemma should_regenerate_fail_open_witness :
  parse_none "not-a-timestamp" = None /\
  should_regenerate (E := ReconcileError) parse_none t0
    (Some (mkStatus (Some "old"%string) None None (Some "not-a-timestamp"%string))) 24
    world_all_fail []
  = (Done true, [EvLog Warn "Failed to parse expiry; will regenerate SAS token"]).
Proof.
  split; [reflexivity|].
  apply (should_regenerate_fail_open parse_none t0
           (Some (mkStatus (Some "old"%string) None None (Some "not-a-timestamp"%string)))
           24 world_all_fail []).
  reflexivity.
Defined.

(** C2 fails for large renewal windows: the expiry 1970-01-01T00:00:00Z
    parses, but with a window of 10^9 hours [e - r hours] falls before
    year -9999 and the subtraction panics instead of returning a boolean. *)
Lemma should_regenerate_window_overflow :
  fst (should_regenerate (E := ReconcileError) (parse_const (mkODT 0 0)) t0
         (Some (mkStatus None None None (Some "1970-01-01T00:00:00Z"%string))) 1000000000
         world_all_fail [])
    = Panic "resulting value is out of range" /\
  fst (should_regenerate (E := ReconcileError) (parse_const (mkODT 0 0)) t0
         (Some (mkStatus None None None (Some "1970-01-01T00:00:00Z"%string))) 1000000000
         world_all_fail []) <> Done true /\
  fst (should_regenerate (E := ReconcileError) (parse_const (mkODT 0 0)) t0
         (Some (mkStatus None None None (Some "1970-01-01T00:00:00Z"%string))) 1000000000
         world_all_fail []) <> Done false.
Proof. vm_compute. repeat split; discriminate. Qed.

(** Expiry [t0 + 10h], renewal 1h, now [t0]: not due. *)
Lemma should_regenerate_parsed_witness :
  expiry (mkStatus None None None (Some "2023-11-15T08:13:20Z"%string))
    = Some "2023-11-15T08:13:20Z"%string /\
  parse_const (mkODT ((1700000000 + 36000) * NS_PER_SEC) 0) "2023-11-15T08:13:20Z"%string
    = Some (mkODT ((1700000000 + 36000) * NS_PER_SEC) 0) /\
  should_regenerate (E := ReconcileError) (parse_const (mkODT ((1700000000 + 36000) * NS_PER_SEC) 0))
    t0 (Some (mkStatus None None None (Some "2023-11-15T08:13:20Z"%string))) 1 world_all_fail []
  = (Done false, []).
Proof.
  split; [reflexivity|]. split; [reflexivity|].
  rewrite (should_regenerate_parsed (parse_const (mkODT ((1700000000 + 36000) * NS_PER_SEC) 0))
             t0 (mkODT ((1700000000 + 36000) * NS_PER_SEC) 0)
             (mkStatus None None None (Some "2023-11-15T08:13:20Z"%string))
             "2023-11-15T08:13:20Z"%string 1 world_all_fail [] eq_refl eq_refl).
  vm_compute. reflexivity.
Defined.

(* ------------------------------------------------------------------ *)
(** ** The retry loop *)

Lemma attempt_windows_app (a b : list Event) :
  attempt_windows (a ++ b) = attempt_windows a ++ attempt_windows b.
Proof. induction a as [|[] a IH]; simpl; rewrite ?IH; reflexivity. Qed.

Lemma sleeps_app (a b : list Event) : sleeps (a ++ b) = sleeps a ++ sleeps b.
Proof. induction a as [|[] a IH]; simpl; rewrite ?IH; reflexivity. Qed.

Lemma retry_strategy_eq : retry_strategy = [1000; 30000; 30000; 30000; 30000].
Proof. reflexivity. Qed.

Lemma sas_attempt_run s e k w tr :
  sas_attempt s e k w tr =
    match w_attempt w k with
    | Ok t => (Done t, tr ++ [EvGenerateClient k s e;
                             EvLog Info "SAS token generated successfully on this attempt"])
    | Err err => (Fail err, tr ++ [EvGenerateClient k s e;
                                  EvLog Warn "SAS generation failed; retrying..."])
    end.
Proof. unfold sas_attempt, generate_client, request. destruct (w_attempt w k); simpl; by rewrite <- app_assoc. Qed.

(** The loop stops after a single attempt. *)
Ltac retry_one_attempt :=
  split; [intros j s e [He|[]]; inversion He; subst; repeat split; lia
         |split; [simpl; lia
                 |split; [intros ms []
                         |split; [repeat constructor | intros m; discriminate]]]].

Section Retry.
Variables (start expiry : OffsetDateTime) (w : World).

(** What one run of the loop sends: issuance calls for the one window,
    numbered from [k], at most one more than the waits; waits that are
    jittered delays of the strategy; no write; no panic. *)
Lemma retry_spawn_shape (l : list Z) (k : nat) :
  let r := retry_spawn l k (sas_attempt start expiry) w [] in
  (forall j s e, In (j, s, e) (attempt_windows (snd r)) ->
     s = start /\ e = expiry /\ (k <= j <= k + length l)%nat) /\
  (length (attempt_windows (snd r)) <= S (length l))%nat /\
  (forall ms, In ms (sleeps (snd r)) -> exists j d, In d l /\ ms = w_jitter w j d) /\
  Forall (fun ev => is_write ev = false) (snd r) /\
  (forall m, fst r <> Panic m).
Proof.
  revert k. induction l as [|d l IH]; intros k; simpl;
    rewrite sas_attempt_run; destruct (w_attempt w k) as [t|err]; simpl;
    [retry_one_attempt | retry_one_attempt | retry_one_attempt |].
  rewrite (frame_retry_spawn l (S k) _ (fun j => frame_sas_attempt start expiry j) w
             [EvGenerateClient k start expiry; EvLog Warn "SAS generation failed; retrying...";
              EvSleep (w_jitter w k d)]).
  destruct (IH (S k)) as (Hw & Hl & Hs & Hwr & Hp).
  destruct (retry_spawn l (S k) (sas_attempt start expiry) w []) as [o x]; simpl in *.
  split; [|split; [|split; [|split]]].
  - intros j s e [He|Hin]; [inversion He; subst; repeat split; lia|].
    destruct (Hw j s e Hin) as (-> & -> & ?). repeat split; lia.
  - lia.
  - intros ms [<-|Hin].
    + exists k, d. split; [left|]; reflexivity.
    + destruct (Hs ms Hin) as (j & d' & ? & ->). exists j, d'. split; [right|]; auto.
  - repeat constructor. exact Hwr.
  - exact Hp.
Qed.

(** When every attempt fails, the loop makes [length l + 1] attempts and
    returns the last attempt's error. *)
Lemma retry_spawn_all_fail (l : list Z) (k : nat) (last : AnyError) :
  (forall j, (k <= j < k + length l)%nat -> exists err, w_attempt w j = Err err) ->
  w_attempt w (k + length l) = Err last ->
  fst (retry_spawn l k (sas_attempt start expiry) w []) = Fail last /\
  length (attempt_windows (snd (retry_spawn l k (sas_attempt start expiry) w []))) = S (length l).
Proof.
  revert k. induction l as [|d l IH]; intros k Hall Hlast; simpl in *.
  - rewrite Nat.add_0_r in Hlast.
    rewrite sas_attempt_run, Hlast. simpl. split; reflexivity.
  - destruct (Hall k ltac:(lia)) as [err Herr].
    rewrite sas_attempt_run, Herr. simpl.
    rewrite (frame_retry_spawn l (S k) _ (fun j => frame_sas_attempt start expiry j) w
               [EvGenerateClient k start expiry; EvLog Warn "SAS generation failed; retrying...";
                EvSleep (w_jitter w k d)]).
    destruct (IH (S k)) as [Hf Hn].
    + intros j Hj. apply Hall. lia.
    + rewrite <- Hlast. f_equal. lia.
    + simpl. split; [exact Hf|]. rewrite Hn. reflexivity.
Qed.

End Retry.

(** The waits of one run of the loop, in order: after the [n] failed
    attempts [k, ..., k + n - 1] it sleeps the jittered first [n] delays
    of the strategy, and it makes [n + 1] attempts in all. *)
Lemma retry_spawn_waits (start expiry : OffsetDateTime) (w : World) (l : list Z) (k : nat) :
  exists n, (n <= length l)%nat /\
    length (attempt_windows (snd (retry_spawn l k (sas_attempt start expiry) w []))) = S n /\
    sleeps (snd (retry_spawn l k (sas_attempt start expiry) w []))
      = map (fun '(i, d) => w_jitter w i d) (combine (seq k n) (firstn n l)).
Proof.
  revert k. induction l as [|d l IH]; intros k; simpl;
    rewrite sas_attempt_run; destruct (w_attempt w k) as [t|err]; simpl.
  - exists 0%nat. repeat split; lia.
  - exists 0%nat. repeat split; lia.
  - exists 0%nat. repeat split; lia.
  - rewrite (frame_retry_spawn l (S k) _ (fun j => frame_sas_attempt start expiry j) w
               [EvGenerateClient k start expiry; EvLog Warn "SAS generation failed; retrying...";
                EvSleep (w_jitter w k d)]).
    destruct (IH (S k)) as (n & Hn & Hl & Hs).
    exists (S n). cbn [snd]. rewrite attempt_windows_app, sleeps_app, Hs.
    split; [lia|]. split; [cbn [attempt_windows app length]; rewrite Hl; reflexivity|].
    reflexivity.
Qed.

(* ------------------------------------------------------------------ *)
(** ** Issuance *)

Lemma bind_run {E A B} (m : M E A) (k : A -> M E B) w tr :
  bind m k w tr =
    match m w tr with
    | (Done a, tr') => k a w tr'
    | (Fail e, tr') => (Fail e, tr')
    | (Panic s, tr') => (Panic s, tr')
    end.
Proof. reflexivity. Qed.

Lemma create_credential_run w :
  create_credential w [] =
    match w_env w "AZURE_CLIENT_ID" with
    | None => (Fail ["AZURE_CLIENT_ID env var missing"; "environment variable not found"]%string, [])
    | Some _ =>
        match w_env w "AZURE_TENANT_ID" with
        | None => (Fail ["AZURE_TENANT_ID env var missing"; "environment variable not found"]%string, [])
        | Some _ => (Done tt, [])
        end
    end.
Proof.
  unfold create_credential, env_var, with_context, map_err, mbind, M_bind, bind, ask, ret, throw.
  destruct (w_env w "AZURE_CLIENT_ID"), (w_env w "AZURE_TENANT_ID"); reflexivity.
Qed.

Lemma generate_container_sas_run a c h w :
  generate_container_sas a c h w [] =
  match Duration_hours h with
  | None => (Panic "overflow constructing `time::Duration`", [])
  | Some d =>
    match odt_checked_add (w_now_utc w) d with
    | None => (Panic "resulting value is out of range", [])
    | Some e =>
      match fst (create_credential w []) with
      | Fail err => (Fail ("Failed to create Azure WorkloadIdentityCredential" :: err),
                     [EvLog Info "Starting SAS token generation"])
      | _ =>
        match retry_spawn retry_strategy 0 (sas_attempt (w_now_utc w) e) w [] with
        | (Done t, x) => (Done (t, e), EvLog Info "Starting SAS token generation" ::
                            x ++ [EvLog Info "SAS token generation completed successfully"])
        | (Fail err, x) => (Fail ("Failed to generate SAS token after all retries" :: err),
                            EvLog Info "Starting SAS token generation" :: x)
        | (Panic m, x) => (Panic m, EvLog Info "Starting SAS token generation" :: x)
        end
      end
    end
  end.
Proof.
  rewrite create_credential_run.
  unfold generate_container_sas, now_utc, with_context, map_err, create_credential, env_var,
    mbind, M_bind.
  destruct (Duration_hours h) as [d|]; [|reflexivity].
  cbv beta iota zeta delta [bind ask ret throw emit log expect panic app fst snd with_context map_err].
  destruct (odt_checked_add (w_now_utc w) d) as [e|]; [|reflexivity].
  cbv beta iota zeta delta [bind ask ret throw emit log expect panic app fst snd with_context map_err].
  destruct (w_env w "AZURE_CLIENT_ID"); [|reflexivity].
  destruct (w_env w "AZURE_TENANT_ID"); [|reflexivity].
  cbv beta iota zeta delta [bind ask ret throw emit log expect panic app fst snd with_context map_err].
  rewrite (frame_retry_spawn retry_strategy 0 _ (fun j => frame_sas_attempt _ _ j) w
               [EvLog Info "Starting SAS token generation"]).
  destruct (retry_spawn retry_strategy 0 (sas_attempt (w_now_utc w) e) w []) as [[t|err|m] x]; reflexivity.
Qed.

(** The run of the issuer: either it stops before the remote calls (a
    panic in the window arithmetic or a missing environment variable), or
    its remote calls, waits and result are those of the retry loop over
    the window [now, now + hours]. *)
Lemma generate_container_sas_cases a c h w :
  let r := generate_container_sas a c h w [] in
  (attempt_windows (snd r) = [] /\ sleeps (snd r) = [] /\
   Forall (fun ev => is_write ev = false) (snd r) /\ (forall t, fst r <> Done t)) \/
  (exists d e, Duration_hours h = Some d /\ odt_checked_add (w_now_utc w) d = Some e /\
     let rr := retry_spawn retry_strategy 0 (sas_attempt (w_now_utc w) e) w [] in
     attempt_windows (snd r) = attempt_windows (snd rr) /\ sleeps (snd r) = sleeps (snd rr) /\
     Forall (fun ev => is_write ev = false) (snd r) /\
     fst r = match fst rr with
             | Done t => Done (t, e)
             | Fail err => Fail ("Failed to generate SAS token after all retries" :: err)
             | Panic m => Panic m
             end).
Proof.
  cbv zeta. rewrite generate_container_sas_run.
  destruct (Duration_hours h) as [d|]; [|left; repeat split; [constructor | discriminate]].
  destruct (odt_checked_add (w_now_utc w) d) as [e|] eqn:He;
    [|left; repeat split; [constructor | discriminate]].
  rewrite create_credential_run.
  destruct (w_env w "AZURE_CLIENT_ID");
    [|left; repeat split; [repeat constructor | discriminate]].
  destruct (w_env w "AZURE_TENANT_ID");
    [|left; repeat split; [repeat constructor | discriminate]].
  cbn [fst].
  right. exists d, e. split; [reflexivity|]. split; [exact He|].
  pose proof (retry_spawn_shape (w_now_utc w) e w retry_strategy 0) as (_ & _ & _ & Hwr & _).
  cbv zeta.
  destruct (retry_spawn retry_strategy 0 (sas_attempt (w_now_utc w) e) w []) as [[t|err|m] x];
    cbn [fst snd attempt_windows sleeps] in *; rewrite ?attempt_windows_app, ?sleeps_app;
    cbn [attempt_windows sleeps]; rewrite ?app_nil_r; (split; [reflexivity|]); (split; [reflexivity|]); (split; [|reflexivity]);
    repeat constructor; try exact Hwr.
  apply Forall_app. split; [exact Hwr | repeat constructor].
Qed.

(** C5 (as amended): every remote issuance call uses the window
    [now, now + h hours]: its start is the current instant, not back-dated,
    and its end is exactly [h] hours later (same offset). *)
Theorem generate_container_sas_window (a c : string) (h : Z) (w : World)
    (k : nat) (s e : OffsetDateTime) :
  In (k, s, e) (attempt_windows (snd (generate_container_sas a c h w []))) ->
  s = w_now_utc w /\
  odt_utc_ns e = odt_utc_ns s + h * 3600 * NS_PER_SEC /\
  odt_offset_s e = odt_offset_s s.
Proof.
  intros Hin.
  destruct (generate_container_sas_cases a c h w) as [(Hn & _)|(d & e' & Hd & He & Hw & _)].
  - rewrite Hn in Hin. destruct Hin.
  - rewrite Hw in Hin.
    destruct (retry_spawn_shape (w_now_utc w) e' w retry_strategy 0) as (Hs & _).
    destruct (Hs k s e Hin) as (-> & -> & _).
    unfold Duration_hours, i64_checked_mul in Hd.
    destruct (i64_in_range (h * 3600)); [|discriminate].
    injection Hd as <-.
    unfold odt_checked_add in He. simpl in He.
    destruct (local_in_range _); [|discriminate].
    injection He as <-. unfold odt_utc_ns. simpl. split; [reflexivity|]. split; [lia|reflexivity].
Qed.

Lemma generate_container_sas_window_witness :
  In (0%nat, t0, mkODT ((1700000000 + 48 * 3600) * NS_PER_SEC) 0)
     (attempt_windows (snd (generate_container_sas "acct" "cont" 48 world_all_fail []))) /\
  t0 = w_now_utc world_all_fail /\
  odt_utc_ns (mkODT ((1700000000 + 48 * 3600) * NS_PER_SEC) 0)
    = odt_utc_ns t0 + 48 * 3600 * NS_PER_SEC /\
  odt_offset_s (mkODT ((1700000000 + 48 * 3600) * NS_PER_SEC) 0) = odt_offset_s t0.
Proof.
  assert (H : In (0%nat, t0, mkODT ((1700000000 + 48 * 3600) * NS_PER_SEC) 0)
     (attempt_windows (snd (generate_container_sas "acct" "cont" 48 world_all_fail []))))
    by (vm_compute; left; reflexivity).
  split; [exact H|].
  exact (generate_container_sas_window "acct" "cont" 48 world_all_fail 0 _ _ H).
Defined.

(** C5 fails: at [now = t0] the first remote call's window starts at
    [t0] itself, not at [t0 - 5 s]. *)
Lemma generate_container_sas_no_backdating :
  exists s e, In (0%nat, s, e)
                 (attempt_windows (snd (generate_container_sas "acct" "cont" 48 world_all_fail []))) /\
              s = t0 /\ odt_utc_ns s <> odt_utc_ns t0 - 5 * NS_PER_SEC.
Proof.
  exists t0, (mkODT ((1700000000 + 48 * 3600) * NS_PER_SEC) 0).
  split; [vm_compute; left; reflexivity|]. split; [reflexivity|]. vm_compute. discriminate.
Qed.

(** C4: what the code does.  The issuer makes at most 6 remote calls (the
    first and the 5 retries of [take(5)]); its waits are, in order, the
    jittered first [n] delays of [1000; 30000; 30000; 30000; 30000] ms
    (tokio-retry's [from_millis(500).factor(2)] gives [500^k * 2] ms,
    capped at 30 s), after [n] failed calls; when the 6 calls all fail it
    has waited [jitter(1000)] and then [jitter(30000)] four times, and it
    fails with the retry context wrapping the last call's error. *)
Theorem generate_container_sas_retry_policy (a c : string) (h : Z) (w : World) :
  (length (attempt_windows (snd (generate_container_sas a c h w []))) <= 6)%nat /\
  (exists n, (n <= 5)%nat /\
     sleeps (snd (generate_container_sas a c h w []))
       = map (fun '(i, d) => w_jitter w i d)
             (combine (seq 0 n) (firstn n [1000; 30000; 30000; 30000; 30000]))) /\
  ((forall j, (j < 5)%nat -> exists err, w_attempt w j = Err err) ->
   forall last, w_attempt w 5 = Err last ->
   attempt_windows (snd (generate_container_sas a c h w [])) <> [] ->
   fst (generate_container_sas a c h w [])
     = Fail ("Failed to generate SAS token after all retries" :: last) /\
   (length (attempt_windows (snd (generate_container_sas a c h w []))) = 6)%nat /\
   sleeps (snd (generate_container_sas a c h w []))
     = [w_jitter w 0 1000; w_jitter w 1 30000; w_jitter w 2 30000;
        w_jitter w 3 30000; w_jitter w 4 30000]).
Proof.
  destruct (generate_container_sas_cases a c h w) as [(Hn & Hsl & _)|(d & e & Hd & He & Hw & Hs & _ & Hf)].
  - rewrite Hn, Hsl. split; [simpl; lia|]. split; [exists 0%nat; split; [lia | reflexivity]|].
    intros _ last _ Hne. congruence.
  - rewrite Hw, Hs, Hf.
    destruct (retry_spawn_waits (w_now_utc w) e w retry_strategy 0) as (n & Hnl & Hl & Hsl).
    rewrite retry_strategy_eq in Hnl, Hsl. simpl in Hnl.
    split; [rewrite Hl; lia|]. split; [exists n; split; [exact Hnl | exact Hsl]|].
    intros Hall last Hlast _.
    destruct (retry_spawn_all_fail (w_now_utc w) e w retry_strategy 0 last) as [Hf' Hn'].
    + intros j Hjr. apply Hall. rewrite retry_strategy_eq in Hjr. simpl in Hjr. lia.
    + rewrite retry_strategy_eq. exact Hlast.
    + rewrite Hf'. split; [reflexivity|].
      rewrite Hn', retry_strategy_eq. split; [reflexivity|].
      rewrite Hl, retry_strategy_eq in Hn'. simpl in Hn'. injection Hn' as ->.
      rewrite Hsl. reflexivity.
Qed.

Lemma generate_container_sas_retry_policy_witness :
  fst (generate_container_sas "acct" "cont" 48 world_all_fail [])
    = Fail ["Failed to generate SAS token after all retries";
            "Failed to fetch user delegation key from Azure"; "timeout"]%string /\
  sleeps (snd (generate_container_sas "acct" "cont" 48 world_all_fail []))
    = [500; 15000; 15000; 15000; 15000].
Proof.
  destruct (generate_container_sas_retry_policy "acct" "cont" 48 world_all_fail) as (_ & _ & H).
  destruct (H (fun j _ => ex_intro _ _ eq_refl) _ eq_refl) as (H1 & _ & H3);
    [vm_compute; discriminate|].
  split; [exact H1|]. rewrite H3. reflexivity.
Defined.

(** C4 fails: when every call fails the waits before jitter are
    [1000; 30000; 30000; 30000; 30000] ms, not [500; 1000; 2000; 4000; 8000]
    (the second is thirty times the first, not twice it), and six calls
    are made, not five. *)
Lemma generate_container_sas_six_attempts :
  retry_strategy = [1000; 30000; 30000; 30000; 30000] /\
  retry_strategy <> [500; 1000; 2000; 4000; 8000] /\
  (length (attempt_windows (snd (generate_container_sas "acct" "cont" 48 world_all_fail [])))
    = 6)%nat /\
  sleeps (snd (generate_container_sas "acct" "cont" 48 world_all_fail []))
    = [500; 15000; 15000; 15000; 15000].
Proof. split; [|split; [|split]]; vm_compute; [reflexivity | discriminate | reflexivity | reflexivity]. Qed.

Lemma bind_frame_run {E A B} (m : M E A) (k : A -> M E B) w tr :
  frame m ->
  bind m k w tr =
    match m w [] with
    | (Done a, x) => k a w (tr ++ x)
    | (Fail e, x) => (Fail e, tr ++ x)
    | (Panic s, x) => (Panic s, tr ++ x)
    end.
Proof. intros Hm. unfold bind. rewrite (Hm w tr). by destruct (m w []) as [[a|e|s] x]. Qed.

Lemma reconcile_run parse g ctx w :
  let now := w_now_utc w in
  let L := EvLog Info "Loaded SasGenerator spec and status" in
  let G := EvLog Info "Generated new SAS token" in
  reconcile parse g ctx w [] =
  match should_regenerate parse now (status g)
          (unwrap_or (sas_renewal_hours (spec g)) (ctx_sas_renewal_hours ctx)) w [] with
  | (Done true, x) =>
     match generate_token_info (storage_account (spec g)) (container_name (spec g))
             (unwrap_or (sas_ttl_hours (spec g)) (ctx_sas_ttl_hours ctx)) now w [] with
     | (Done ti, y) =>
        match ensure_secret g ctx w [] with
        | (Done _, z) =>
           match update_crd_status g ctx (build_status ti (target_secret_name g None)) w [] with
           | (Done _, u) => (Done (Requeue 15), L :: x ++ y ++ G :: z ++ u)
           | (Fail e, u) => (Fail e, L :: x ++ y ++ G :: z ++ u)
           | (Panic m, u) => (Panic m, L :: x ++ y ++ G :: z ++ u)
           end
        | (Fail e, z) => (Fail e, L :: x ++ y ++ G :: z)
        | (Panic m, z) => (Panic m, L :: x ++ y ++ G :: z)
        end
     | (Fail e, y) => (Fail (Azure (anyhow_to_string e)), L :: x ++ y)
     | (Panic m, y) => (Panic m, L :: x ++ y)
     end
  | (Done false, x) => (Done (Requeue 15), L :: x)
  | (Fail e, x) => (Fail e, L :: x)
  | (Panic m, x) => (Panic m, L :: x)
  end.
Proof.
  cbv zeta.
  unfold reconcile, log_spec, now_utc, mbind, M_bind.
  cbv beta iota zeta delta [bind ask ret log emit].
  set (L := EvLog Info "Loaded SasGenerator spec and status").
  set (G := EvLog Info "Generated new SAS token").
  rewrite (frame_should_regenerate parse _ _ _ w ([] ++ [L])).
  destruct (should_regenerate parse (w_now_utc w) (status g) _ w []) as [[[|]|e|m] x];
    cbn [fst snd]; try reflexivity.
  unfold map_err.
  rewrite (frame_generate_token_info _ _ _ _ w (([] ++ [L]) ++ x)).
  destruct (generate_token_info _ _ _ _ w []) as [[ti|e|m] y]; cbn [fst snd]; try reflexivity.
  rewrite (frame_ensure_secret g ctx w (((([] ++ [L]) ++ x) ++ y) ++ [G])).
  destruct (ensure_secret g ctx w []) as [[[]|e|m] z]; cbn [fst snd];
    try (by rewrite <- !app_assoc).
  rewrite (frame_update_crd_status g ctx _ w ((((([] ++ [L]) ++ x) ++ y) ++ [G]) ++ z)).
  destruct (update_crd_status g ctx _ w []) as [[[]|e|m] u]; cbn [fst snd];
    by rewrite <- !app_assoc.
Qed.

Lemma should_regenerate_logs {E} parse now st r w :
  Forall (fun ev => is_log ev = true) (snd (should_regenerate (E := E) parse now st r w [])) /\
  (fst (should_regenerate (E := E) parse now st r w []) = Done false ->
   snd (should_regenerate (E := E) parse now st r w []) = []).
Proof.
  unfold should_regenerate.
  destruct st as [s|]; [|split; [constructor | discriminate]].
  destruct (expiry s) as [x|]; [|split; [constructor | discriminate]].
  destruct (parse x) as [e|].
  - unfold mbind, M_bind, bind, expect, ret, panic.
    destruct (Duration_hours r); [|split; [constructor | discriminate]].
    destruct (odt_checked_sub e d); split; constructor.
  - split; [repeat constructor | discriminate].
Qed.

Lemma generate_token_info_run a c h now w :
  generate_token_info a c h now w [] =
    match generate_container_sas a c h w [] with
    | (Done (t, e), x) => (Done (mkTokenInfo t now e), x)
    | (Fail err, x) => (Fail err, x)
    | (Panic m, x) => (Panic m, x)
    end.
Proof.
  unfold generate_token_info, mbind, M_bind, bind.
  destruct (generate_container_sas a c h w []) as [[[t e]|err|m] x]; reflexivity.
Qed.

Lemma ensure_secret_run g ctx w :
  let ns := unwrap_or (meta_namespace (metadata g)) "default"%string in
  let name := target_secret_name g None in
  let I := EvLog Info "Ensuring Secret exists or is up to date" in
  ensure_secret g ctx w [] =
  match controller_owner_ref g with
  | None => (Panic "called `Option::unwrap()` on a `None` value", [I])
  | Some oref =>
    match w_get_secret w with
    | Ok _ =>
        (kube_outcome (w_patch_secret w),
         [I; EvGetSecret ns name;
          EvPatchSecret ns name (PatchParams_apply_force "sas-operator") (desired_secret g oref)]
         ++ match w_patch_secret w with
            | Ok _ => [EvLog Info "Secret updated successfully"] | Err _ => [] end)
    | Err (KubeApi code msg) =>
        if Z.eqb code 404 then
          (kube_outcome (w_create_secret w),
           [I; EvGetSecret ns name; EvLog Warn "Secret not found; creating new one";
            EvCreateSecret ns (desired_secret g oref)]
           ++ match w_create_secret w with
              | Ok _ => [EvLog Info "Secret created successfully"] | Err _ => [] end)
        else (Fail (Kube (KubeApi code msg)),
              [I; EvGetSecret ns name; EvLog Warn "Failed to apply Secret changes"])
    | Err e => (Fail (Kube e), [I; EvGetSecret ns name; EvLog Warn "Failed to apply Secret changes"])
    end
  end.
Proof.
  cbv zeta. unfold ensure_secret, mbind, M_bind.
  cbv beta iota zeta delta [bind log emit expect ret panic app].
  destruct (controller_owner_ref g) as [oref|]; [|reflexivity].
  cbv beta iota zeta delta [bind log emit expect ret panic app try_result request].
  destruct (w_get_secret w) as [[]|[code msg|msg]].
  - unfold map_err, request. destruct (w_patch_secret w) as [[]|e]; reflexivity.
  - destruct (Z.eqb code 404).
    + unfold map_err, request, throw. destruct (w_create_secret w) as [[]|e]; reflexivity.
    + reflexivity.
  - reflexivity.
Qed.

Lemma update_crd_status_run g ctx st w :
  let ns := unwrap_or (meta_namespace (metadata g)) "default"%string in
  update_crd_status g ctx st w [] =
    (match w_patch_status w with
     | Ok _ => Done tt
     | Err e => Fail (CrdApply ("Failed to patch CRD status: " ++ kube_error_to_string e))
     end,
     EvPatchStatus ns (name_any g) (PatchParams_apply_force "sas-operator")
       (mkSasGenerator (mkMeta (Some (name_any g)) (meta_namespace (metadata g)) None) (spec g) (Some st))
     :: match w_patch_status w with
        | Ok _ => [EvLog Info "CRD status successfully updated"]
        | Err _ => [EvLog Warn "Failed to update CRD status"]
        end).
Proof.
  cbv zeta. unfold update_crd_status, mbind, M_bind.
  cbv beta iota zeta delta [bind log emit ret throw app try_result request].
  destruct (w_patch_status w) as [[]|e]; reflexivity.
Qed.

Lemma generate_token_info_no_write a c h w :
  Forall (fun ev => is_write ev = false) (snd (generate_token_info a c h (w_now_utc w) w [])).
Proof.
  rewrite generate_token_info_run.
  destruct (generate_container_sas_cases a c h w) as [(_ & _ & Hwr & _)|(_ & _ & _ & _ & _ & _ & Hwr & _)];
    destruct (generate_container_sas a c h w []) as [[[t e]|err|m] y]; exact Hwr.
Qed.

Lemma no_write_written_secret (l : list Event) (P : Secret -> Prop) :
  Forall (fun ev => is_write ev = false) l ->
  Forall (fun ev => match written_secret ev with None => True | Some s => P s end) l.
Proof.
  intros H. eapply Forall_impl; [exact H|]. intros [] Hw; simpl in *; try exact I; discriminate.
Qed.

Lemma log_no_write (l : list Event) :
  Forall (fun ev => is_log ev = true) l -> Forall (fun ev => is_write ev = false) l.
Proof. intros H. eapply Forall_impl; [exact H|]. intros [] Hw; simpl in *; congruence. Qed.

(** C1 fails (code bug, for every run): every Secret a reconciliation
    writes carries under [sas_token] the token of the status the resource
    had when the reconciliation started, not the newly issued one. *)
Theorem reconcile_secret_token_from_old_status parse g ctx w :
  Forall (fun ev => match written_secret ev with
                    | None => True
                    | Some s => sec_string_data s
                                = Some (secret_data (spec g) (token (unwrap_or (status g) status_default)))
                    end)
         (snd (reconcile parse g ctx w [])).
Proof.
  rewrite reconcile_run. cbv zeta.
  pose proof (should_regenerate_logs (E := ReconcileError) parse (w_now_utc w) (status g)
                (unwrap_or (sas_renewal_hours (spec g)) (ctx_sas_renewal_hours ctx)) w) as [Hl _].
  pose proof (generate_token_info_no_write (storage_account (spec g)) (container_name (spec g))
                (unwrap_or (sas_ttl_hours (spec g)) (ctx_sas_ttl_hours ctx)) w) as Hg.
  set (P := fun s : Secret => sec_string_data s
              = Some (secret_data (spec g) (token (unwrap_or (status g) status_default)))).
  apply log_no_write, (no_write_written_secret _ P) in Hl.
  apply (no_write_written_secret _ P) in Hg.
  destruct (should_regenerate _ _ _ _ w []) as [[[|]|e|m] x]; cbn [snd] in *;
    try (constructor; [exact I | exact Hl]).
  destruct (generate_token_info _ _ _ _ w []) as [[ti|e|m] y]; cbn [snd] in *;
    try (constructor; [exact I | apply Forall_app; split; assumption]).
  assert (He : Forall (fun ev => match written_secret ev with
                    | None => True
                    | Some s => sec_string_data s
                                = Some (secret_data (spec g) (token (unwrap_or (status g) status_default)))
                    end) (snd (ensure_secret g ctx w []))).
  { rewrite ensure_secret_run. cbv zeta.
    destruct (controller_owner_ref g) as [oref|]; [|repeat constructor].
    destruct (w_get_secret w) as [[]|[code msg|msg]];
      [| destruct (Z.eqb code 404) |];
      try destruct (w_patch_secret w); try destruct (w_create_secret w);
      repeat constructor. }
  assert (Hu : forall st, Forall (fun ev => match written_secret ev with
                    | None => True
                    | Some s => sec_string_data s
                                = Some (secret_data (spec g) (token (unwrap_or (status g) status_default)))
                    end) (snd (update_crd_status g ctx st w []))).
  { intros st. rewrite update_crd_status_run. cbv zeta. destruct (w_patch_status w); repeat constructor. }
  pose proof (Hu (build_status ti (target_secret_name g None))) as Hu'.
  destruct (ensure_secret g ctx w []) as [[[]|e|m] z]; cbn [snd] in *;
    [destruct (update_crd_status g ctx (build_status ti (target_secret_name g None)) w [])
       as [[[]|e|m] u]; cbn [snd] in *|..];
    repeat first [assumption | apply Forall_nil | apply Forall_app; split
                 | (constructor; [simpl; exact I|])].
Qed.

(** C6: with the resource's owner reference [oref], [ensure_secret] first
    reads the Secret by name. If it exists, it sends one forced
    server-side apply ([sas-operator]) of the desired Secret, which the
    store then holds whatever it held before. If the read fails with 404, it
    creates the desired Secret; that Secret has its name, namespace,
    labels, annotations and data, and its owner references are [oref].
    Any other read error, and any write error, is returned as [Kube]
    without another request. *)
Theorem ensure_secret_paths (g : SasGenerator) (ctx : ContextData) (w : World)
    (oref : OwnerReference) :
  controller_owner_ref g = Some oref ->
  let ns := unwrap_or (meta_namespace (metadata g)) "default"%string in
  let name := target_secret_name g None in
  let desired := desired_secret g oref in
  let r := ensure_secret g ctx w [] in
  match w_get_secret w with
  | Ok _ =>
      api_events (snd r)
        = [EvGetSecret ns name; EvPatchSecret ns name (PatchParams_apply_force "sas-operator") desired] /\
      fst r = kube_outcome (w_patch_secret w) /\
      pp_force (PatchParams_apply_force "sas-operator") = true /\
      (forall stored,
         store_apply (EvPatchSecret ns name (PatchParams_apply_force "sas-operator") desired) stored
         = Some desired)
  | Err (KubeApi code msg) =>
      if Z.eqb code 404 then
        api_events (snd r) = [EvGetSecret ns name; EvCreateSecret ns desired] /\
        fst r = kube_outcome (w_create_secret w) /\
        desired = mkSecret (Some name) (Some ns) (Some (secret_labels (spec g)))
                    (Some (secret_annotations (unwrap_or (status g) status_default)))
                    (Some [oref])
                    (Some (secret_data (spec g) (token (unwrap_or (status g) status_default))))
      else
        api_events (snd r) = [EvGetSecret ns name] /\ fst r = Fail (Kube (KubeApi code msg))
  | Err e =>
      api_events (snd r) = [EvGetSecret ns name] /\ fst r = Fail (Kube e)
  end.
Proof.
  intros Ho. cbv zeta. rewrite ensure_secret_run. cbv zeta. rewrite Ho.
  destruct (w_get_secret w) as [[]|[code msg|msg]].
  - destruct (w_patch_secret w); repeat split.
  - destruct (Z.eqb code 404); [destruct (w_create_secret w)|]; repeat split.
  - split; reflexivity.
Qed.

Lemma ensure_secret_paths_witness :
  controller_owner_ref gen_fresh
    = Some (mkOwnerRef "sas.azure.com/v1alpha1" "SasGenerator" "gen" "uid-1" (Some true)) /\
  api_events (snd (ensure_secret gen_fresh ctx_default world_first_issue []))
    = [EvGetSecret "ns" "volsync-acct-cont";
       EvCreateSecret "ns" (desired_secret gen_fresh
          (mkOwnerRef "sas.azure.com/v1alpha1" "SasGenerator" "gen" "uid-1" (Some true)))].
Proof.
  split; [reflexivity|].
  pose proof (ensure_secret_paths gen_fresh ctx_default world_first_issue
                (mkOwnerRef "sas.azure.com/v1alpha1" "SasGenerator" "gen" "uid-1" (Some true))
                eq_refl) as H.
  exact (proj1 H).
Defined.

Lemma logs_attempt_windows (l : list Event) :
  Forall (fun ev => is_log ev = true) l -> attempt_windows l = [].
Proof. induction 1 as [|[] l Hx _ IH]; simpl in *; congruence. Qed.

(** C8: when the expiry policy decides that regeneration is not due, the
    reconciliation only logs that it loaded the resource: no issuance call,
    no Secret or status request, and it requeues after 15 s. *)
Theorem reconcile_not_due parse (g : SasGenerator) (ctx : ContextData) (w : World) :
  fst (should_regenerate (E := ReconcileError) parse (w_now_utc w) (status g)
         (unwrap_or (sas_renewal_hours (spec g)) (ctx_sas_renewal_hours ctx)) w []) = Done false ->
  reconcile parse g ctx w [] = (Done (Requeue 15), [EvLog Info "Loaded SasGenerator spec and status"]) /\
  api_events (snd (reconcile parse g ctx w [])) = [].
Proof.
  intros Hd.
  pose proof (should_regenerate_logs (E := ReconcileError) parse (w_now_utc w) (status g)
                (unwrap_or (sas_renewal_hours (spec g)) (ctx_sas_renewal_hours ctx)) w) as [_ Hx].
  specialize (Hx Hd).
  rewrite reconcile_run. cbv zeta.
  destruct (should_regenerate _ _ _ _ w []) as [o x]. cbn [fst snd] in *. subst o x.
  split; reflexivity.
Qed.

Lemma reconcile_not_due_witness :
  fst (should_regenerate (E := ReconcileError)
         (parse_const (mkODT ((1700000000 + 36000) * NS_PER_SEC) 0)) (w_now_utc world_all_fail)
         (status gen_valid)
         (unwrap_or (sas_renewal_hours (spec gen_valid)) (ctx_sas_renewal_hours ctx_default))
         world_all_fail []) = Done false /\
  reconcile (parse_const (mkODT ((1700000000 + 36000) * NS_PER_SEC) 0)) gen_valid ctx_default
    world_all_fail [] = (Done (Requeue 15), [EvLog Info "Loaded SasGenerator spec and status"]).
Proof.
  assert (H : fst (should_regenerate (E := ReconcileError)
         (parse_const (mkODT ((1700000000 + 36000) * NS_PER_SEC) 0)) (w_now_utc world_all_fail)
         (status gen_valid)
         (unwrap_or (sas_renewal_hours (spec gen_valid)) (ctx_sas_renewal_hours ctx_default))
         world_all_fail []) = Done false) by (vm_compute; reflexivity).
  split; [exact H|].
  exact (proj1 (reconcile_not_due _ gen_valid ctx_default world_all_fail H)).
Defined.

(** C3: when regeneration is due and every issuance attempt fails, once
    the attempts have started the reconciliation fails with
    [Azure "Failed to generate SAS token after all retries"] and writes
    neither the Secret nor the status; [error_policy] then requeues after
    300 s for every resource, error, context and run. *)
Theorem reconcile_issuance_exhausted parse (g : SasGenerator) (ctx : ContextData) (w : World) :
  fst (should_regenerate (E := ReconcileError) parse (w_now_utc w) (status g)
         (unwrap_or (sas_renewal_hours (spec g)) (ctx_sas_renewal_hours ctx)) w []) = Done true ->
  (forall j, exists err, w_attempt w j = Err err) ->
  attempt_windows (snd (reconcile parse g ctx w [])) <> [] ->
  fst (reconcile parse g ctx w []) = Fail (Azure "Failed to generate SAS token after all retries") /\
  Forall (fun ev => is_write ev = false) (snd (reconcile parse g ctx w [])) /\
  (forall obj err ctx' w' tr,
     error_policy obj err ctx' w' tr = (Done (Requeue 300), tr ++ [EvLog Error "Reconcile failed"])).
Proof.
  intros Hd Hall Hne.
  pose proof (should_regenerate_logs (E := ReconcileError) parse (w_now_utc w) (status g)
                (unwrap_or (sas_renewal_hours (spec g)) (ctx_sas_renewal_hours ctx)) w) as [Hl _].
  rewrite reconcile_run in *. cbv zeta in *.
  set (a := storage_account (spec g)) in *. set (c := container_name (spec g)) in *.
  set (h := unwrap_or (sas_ttl_hours (spec g)) (ctx_sas_ttl_hours ctx)) in *.
  destruct (should_regenerate _ _ _ _ w []) as [o x]. cbn [fst snd] in Hd, Hl. subst o.
  rewrite generate_token_info_run in *.
  pose proof (generate_container_sas_cases a c h w) as Hc. cbv zeta in Hc.
  set (r := generate_container_sas a c h w []) in *. clearbody r.
  destruct Hc as [(Hn & _ & Hwr & Hnd)|(d & e & _ & _ & _ & _ & Hwr & Hf)].
  - exfalso. apply Hne.
    destruct r as [[[t e]|err|m] y]; cbn [fst snd] in *;
      [destruct (Hnd (t, e) eq_refl)| |];
      cbn [attempt_windows]; rewrite attempt_windows_app, (logs_attempt_windows x Hl), Hn; reflexivity.
  - destruct (Hall 5%nat) as [last Hlast].
    destruct (retry_spawn_all_fail (w_now_utc w) e w retry_strategy 0 last) as [Hf' _].
    + intros j Hj. apply Hall.
    + rewrite retry_strategy_eq. exact Hlast.
    + rewrite Hf' in Hf. destruct r as [o y]. cbn [fst snd] in *. subst o.
      split; [reflexivity|]. split.
      * constructor; [reflexivity|]. apply Forall_app. split; [apply log_no_write, Hl | exact Hwr].
      * intros. reflexivity.
Qed.

Lemma reconcile_issuance_exhausted_witness :
  fst (reconcile parse_none gen_fresh ctx_default world_all_fail [])
    = Fail (Azure "Failed to generate SAS token after all retries").
Proof.
  refine (proj1 (reconcile_issuance_exhausted parse_none gen_fresh ctx_default world_all_fail
                   eq_refl (fun j => ex_intro _ _ eq_refl) _)).
  vm_compute. discriminate.
Defined.

(** C9 (as amended): a successful issuance at the reconciliation's instant
    gives a token whose expiry is its issuance time plus the TTL hours, at
    the same offset; the expiry is strictly later exactly when the TTL is
    positive. *)
Theorem generate_token_info_expiry (a c : string) (ttl : Z) (w : World) (ti : SasTokenInfo) :
  fst (generate_token_info a c ttl (w_now_utc w) w []) = Done ti ->
  ti_generated ti = w_now_utc w /\
  odt_utc_ns (ti_expiry ti) = odt_utc_ns (ti_generated ti) + ttl * 3600 * NS_PER_SEC /\
  odt_offset_s (ti_expiry ti) = odt_offset_s (ti_generated ti) /\
  (odt_utc_ns (ti_generated ti) < odt_utc_ns (ti_expiry ti) <-> 0 < ttl).
Proof.
  intros Hti. rewrite generate_token_info_run in Hti.
  pose proof (generate_container_sas_cases a c ttl w) as Hc. cbv zeta in Hc.
  destruct Hc as [(_ & _ & _ & Hnd)|(d & e & Hd & He & _ & _ & _ & Hf)];
    destruct (generate_container_sas a c ttl w []) as [[[t e']|err|m] y]; cbn [fst] in *;
    try discriminate.
  - destruct (Hnd (t, e') eq_refl).
  - injection Hti as <-. cbn [ti_generated ti_expiry].
    destruct (fst (retry_spawn retry_strategy 0 (sas_attempt (w_now_utc w) e) w []));
      try discriminate.
    injection Hf as <- <-.
    unfold Duration_hours, i64_checked_mul in Hd.
    destruct (i64_in_range (ttl * 3600)); [|discriminate].
    injection Hd as <-.
    unfold odt_checked_add in He. simpl in He.
    destruct (local_in_range _); [|discriminate].
    injection He as <-. unfold odt_utc_ns, NS_PER_SEC. simpl.
    split; [reflexivity|]. split; [lia|]. split; [reflexivity|]. lia.
Qed.

Lemma generate_token_info_expiry_witness :
  fst (generate_token_info "acct" "cont" 48 (w_now_utc world_first_issue) world_first_issue [])
    = Done (mkTokenInfo "TOK" t0 (mkODT ((1700000000 + 48 * 3600) * NS_PER_SEC) 0)) /\
  odt_utc_ns t0 < odt_utc_ns (mkODT ((1700000000 + 48 * 3600) * NS_PER_SEC) 0).
Proof.
  assert (H : fst (generate_token_info "acct" "cont" 48 (w_now_utc world_first_issue) world_first_issue [])
    = Done (mkTokenInfo "TOK" t0 (mkODT ((1700000000 + 48 * 3600) * NS_PER_SEC) 0)))
    by (vm_compute; reflexivity).
  split; [exact H|].
  pose proof (generate_token_info_expiry "acct" "cont" 48 world_first_issue _ H) as (_ & _ & _ & Hlt).
  apply Hlt. lia.
Defined.

(** C9 fails: nothing bounds the TTL from below. A resource asking for
    [sasTtlHours: 0] gets a status whose expiry equals its issuance time. *)
Lemma reconcile_ttl_zero_expiry_not_after :
  exists ns n pp obj st,
    In (EvPatchStatus ns n pp obj) (snd (reconcile parse_none gen_ttl0 ctx_default world_first_issue [])) /\
    status obj = Some st /\
    generated st = Some "2023-11-14T22:13:20Z"%string /\
    expiry st = Some "2023-11-14T22:13:20Z"%string.
Proof.
  do 5 eexists. split.
  - vm_compute. repeat (first [left; reflexivity | right]).
  - vm_compute. split; [reflexivity|]. split; reflexivity.
Qed.

(** C1 fails: on the first reconciliation of a fresh resource, issuance
    returns [TOK], the status written carries [token = TOK], but the Secret
    created in the same reconciliation has [sas_token = ""], the token of
    the (absent) previous status. *)
Lemma reconcile_first_issue_stale_secret_token :
  (exists ns s,
    In (EvCreateSecret ns s) (snd (reconcile parse_none gen_fresh ctx_default world_first_issue [])) /\
    option_map (fun d : gmap string string => d !! "sas_token"%string) (sec_string_data s)
      = Some (Some ""%string)) /\
  (exists ns n pp obj st,
    In (EvPatchStatus ns n pp obj) (snd (reconcile parse_none gen_fresh ctx_default world_first_issue [])) /\
    status obj = Some st /\ token st = Some "TOK"%string) /\
  fst (reconcile parse_none gen_fresh ctx_default world_first_issue []) = Done (Requeue 15).
Proof.
  split; [|split].
  - do 2 eexists. split.
    + vm_compute. repeat (first [left; reflexivity | right]).
    + vm_compute. reflexivity.
  - do 5 eexists. split.
    + vm_compute. repeat (first [left; reflexivity | right]).
    + vm_compute. split; reflexivity.
  - vm_compute. reflexivity.
Qed.

(* ------------------------------------------------------------------ *)
(** ** Decimal rendering read back *)

Lemma ascii_digit_pretty_N_char (d : N) :
  (d < 10)%N -> ascii_digit (pretty_N_char d) = Some (Z.of_N d).
Proof.
  intros Hd.
  assert (d = 0 \/ d = 1 \/ d = 2 \/ d = 3 \/ d = 4 \/ d = 5 \/ d = 6 \/ d = 7 \/ d = 8 \/ d = 9)%N
    as H by lia.
  repeat destruct H as [->|H]; try reflexivity. subst. reflexivity.
Qed.

Lemma read_digits_pretty_N_go (x : N) :
  forall acc s, exists k : nat,
    read_digits acc (pretty_N_go x s) = read_digits (acc * 10 ^ Z.of_nat k + Z.of_N x) s.
Proof.
  induction (N.lt_wf_0 x) as [x _ IH]; intros acc s.
  destruct (N.eq_dec x 0%N) as [->|Hx].
  - exists 0%nat. rewrite pretty_N_go_0. f_equal. lia.
  - rewrite pretty_N_go_step by lia.
    destruct (IH (x / 10)%N ltac:(apply N.div_lt; lia) acc
                (String (pretty_N_char (x mod 10)) s)) as [k Hk].
    rewrite Hk. exists (S k). simpl.
    rewrite ascii_digit_pretty_N_char by (apply N.mod_lt; lia).
    f_equal. rewrite Nat2Z.inj_succ, Z.pow_succ_r by lia.
    pose proof (N.div_mod x 10 ltac:(lia)) as Hdm.
    apply (f_equal Z.of_N) in Hdm. rewrite N2Z.inj_add, N2Z.inj_mul in Hdm. lia.
Qed.

Lemma append_String_assoc (a b c : string) : ((a ++ b) ++ c)%string = (a ++ b ++ c)%string.
Proof. induction a as [|ch a IH]; [reflexivity | exact (f_equal (String ch) IH)]. Qed.

Lemma append_String_nil_r (a : string) : (a ++ EmptyString)%string = a.
Proof. induction a as [|ch a IH]; [reflexivity | exact (f_equal (String ch) IH)]. Qed.

Lemma pretty_N_go_app (x : N) : forall s1 s2,
  (pretty_N_go x s1 ++ s2)%string = pretty_N_go x (s1 ++ s2).
Proof.
  induction (N.lt_wf_0 x) as [x _ IH]; intros s1 s2.
  destruct (N.eq_dec x 0%N) as [->|Hx]; [by rewrite !pretty_N_go_0|].
  rewrite !(pretty_N_go_step x) by lia.
  rewrite IH by (apply N.div_lt; lia). reflexivity.
Qed.

Lemma read_digits_pretty (n : Z) (s : string) :
  0 <= n -> read_digits 0 (pretty n ++ s) = read_digits n s.
Proof.
  intros Hn. destruct n as [|p|p]; [reflexivity| |lia].
  change (pretty (Z.pos p)) with (pretty (N.pos p)).
  unfold pretty, pretty_N. rewrite decide_False by discriminate.
  rewrite pretty_N_go_app. change (EmptyString ++ s)%string with s.
  destruct (read_digits_pretty_N_go (N.pos p) 0 s) as [k ->]. reflexivity.
Qed.

Lemma read_digits_stop (acc : Z) (c : Ascii.ascii) (s : string) :
  ascii_digit c = None -> read_digits acc (String c s) = (acc, String c s).
Proof. intros H. simpl. by rewrite H. Qed.

Lemma read_pretty_tail (n : Z) (c : Ascii.ascii) (s : string) :
  0 <= n -> ascii_digit c = None -> read_digits 0 (pretty n ++ String c s) = (n, String c s).
Proof. intros Hn Hc. rewrite read_digits_pretty by exact Hn. by apply read_digits_stop. Qed.

Lemma read_pretty_end (n : Z) : 0 <= n -> read_digits 0 (pretty n) = (n, EmptyString).
Proof.
  intros Hn. rewrite <- (append_String_nil_r (pretty n)) at 1.
  rewrite read_digits_pretty by exact Hn. reflexivity.
Qed.


(** ** [format_friendly_duration] *)

Lemma whole_seconds_pos (d : Duration) : 0 < Duration_whole_seconds d <-> NS_PER_SEC <= dur_ns d.
Proof.
  unfold Duration_whole_seconds, NS_PER_SEC.
  destruct (Z_le_gt_dec 0 (dur_ns d)) as [H|H].
  - rewrite Z.quot_div_nonneg by lia. split; intros.
    + destruct (Z_lt_le_dec (dur_ns d) 1000000000); [|lia].
      rewrite Z.div_small in * by lia. lia.
    + apply Z.div_str_pos. lia.
  - split; intros Hq; [|lia].
    rewrite <- (Z.opp_involutive (dur_ns d)), Z.quot_opp_l in Hq by lia.
    rewrite Z.quot_div_nonneg in Hq by lia.
    pose proof (Z.div_pos (- dur_ns d) 1000000000 ltac:(lia) ltac:(lia)). lia.
Qed.

Lemma friendly_decode_format (d : Duration) :
  0 < Duration_whole_seconds d ->
  friendly_decode (format_friendly_duration d)
    = Some (Z.quot (Duration_whole_seconds d) 3600,
            Z.quot (Z.rem (Duration_whole_seconds d) 3600) 60).
Proof.
  intros Hs. unfold format_friendly_duration.
  set (s := Duration_whole_seconds d) in *.
  destruct (Z.leb_spec s 0); [lia|]. cbv zeta.
  assert (Hh : 0 <= Z.quot s 3600) by (apply Z.quot_pos; lia).
  assert (Hm : 0 <= Z.quot (Z.rem s 3600) 60)
    by (apply Z.quot_pos; [apply Z.rem_nonneg|]; lia).
  set (h := Z.quot s 3600) in *. set (m := Z.quot (Z.rem s 3600) 60) in *.
  destruct (Z.eqb_spec h 0) as [Hh0|Hh0].
  - unfold friendly_decode. rewrite read_pretty_tail by (done || reflexivity).
    cbv iota beta. rewrite Hh0. reflexivity.
  - destruct (Z.eqb_spec m 0) as [Hm0|Hm0].
    + unfold friendly_decode. rewrite read_pretty_tail by (done || reflexivity).
      cbv iota beta. rewrite Hm0. reflexivity.
    + unfold friendly_decode.
      change ("h " ++ pretty m ++ "m left")%string
        with (String "h" (String " " (pretty m ++ "m left")))%string.
      rewrite read_pretty_tail by (done || reflexivity).
      cbv iota beta.
      assert (Hne : String.eqb (pretty m ++ "m left") "left" = false).
      { destruct (String.eqb_spec (pretty m ++ "m left") "left") as [He|]; [|reflexivity].
        exfalso. pose proof (read_pretty_tail m "m" " left" Hm eq_refl) as H1.
        rewrite He in H1. vm_compute in H1. discriminate. }
      change (String.eqb (String "h" (String " " (pretty m ++ "m left"))) "m left") with false.
      change (String.eqb (String "h" (String " " (pretty m ++ "m left"))) "h left")
        with (String.eqb (pretty m ++ "m left") "left").
      rewrite Hne. change (Ascii.eqb "h" "h" && Ascii.eqb " " " ") with true. cbv iota beta.
      rewrite read_pretty_tail by (done || reflexivity). reflexivity.
Qed.

Lemma friendly_decode_expired : friendly_decode "expired" = None.
Proof. reflexivity. Qed.

(** [format_friendly_duration d] is ["expired"] exactly when less than one
    whole second is left (a zero, negative or sub-second duration). *)
Theorem format_friendly_duration_expired (d : Duration) :
  format_friendly_duration d = "expired"%string <-> dur_ns d < NS_PER_SEC.
Proof.
  split.
  - intros He. destruct (Z_lt_le_dec (dur_ns d) NS_PER_SEC) as [|Hge]; [assumption|].
    apply whole_seconds_pos in Hge.
    pose proof (friendly_decode_format d Hge) as Hd. rewrite He in Hd. discriminate.
  - intros Hlt. unfold format_friendly_duration.
    destruct (Z.leb_spec (Duration_whole_seconds d) 0) as [|Hp]; [reflexivity|].
    apply whole_seconds_pos in Hp. lia.
Qed.

Lemma div60_parts (s : Z) : 0 <= s ->
  s / 60 = (s / 3600) * 60 + (s mod 3600) / 60.
Proof.
  intros Hs. rewrite (Z.div_mod s 3600) at 1 by lia.
  replace (3600 * (s / 3600) + s mod 3600) with ((s mod 3600) + (s / 3600 * 60) * 60) by lia.
  rewrite Z.div_add by lia. lia.
Qed.

Lemma mod3600_div60 (s : Z) : 0 <= s -> (s mod 3600) / 60 = (s / 60) mod 60.
Proof.
  intros Hs.
  pose proof (Z.div_mod s 60 ltac:(lia)) as E1.
  pose proof (Z.mod_pos_bound s 60 ltac:(lia)) as B1.
  pose proof (Z.div_mod (s / 60) 60 ltac:(lia)) as E2.
  pose proof (Z.mod_pos_bound (s / 60) 60 ltac:(lia)) as B2.
  assert (Hm : s mod 3600 = 60 * ((s / 60) mod 60) + s mod 60).
  { symmetry. apply (Z.mod_unique s 3600 ((s / 60) / 60)); lia. }
  rewrite Hm. symmetry. apply (Z.div_unique _ 60 _ (s mod 60)); lia.
Qed.

(** Two durations of at least one second are rendered alike exactly when
    they have the same number of whole minutes: the hours and minutes shown
    are those of the whole seconds rounded down, and no two different
    (hours, minutes) give the same text. *)
Theorem format_friendly_duration_minutes (d1 d2 : Duration) :
  NS_PER_SEC <= dur_ns d1 -> NS_PER_SEC <= dur_ns d2 ->
  format_friendly_duration d1 = format_friendly_duration d2 <->
  Duration_whole_seconds d1 / 60 = Duration_whole_seconds d2 / 60.
Proof.
  intros H1 H2. apply whole_seconds_pos in H1, H2.
  pose proof (friendly_decode_format d1 H1) as E1.
  pose proof (friendly_decode_format d2 H2) as E2.
  set (s1 := Duration_whole_seconds d1) in *. set (s2 := Duration_whole_seconds d2) in *.
  pose proof (Z.mod_pos_bound s1 3600 ltac:(lia)).
  pose proof (Z.mod_pos_bound s2 3600 ltac:(lia)).
  rewrite !Z.rem_mod_nonneg, !Z.quot_div_nonneg in E1, E2 by lia.
  split.
  - intros He. rewrite He, E2 in E1. injection E1 as Eh Em.
    rewrite (div60_parts s1), (div60_parts s2) by lia. lia.
  - intros He.
    assert (Eh : s1 / 3600 = s2 / 3600).
    { replace 3600 with (60 * 60) by reflexivity. rewrite <- !Z.div_div by lia. by rewrite He. }
    assert (Em : (s1 mod 3600) / 60 = (s2 mod 3600) / 60).
    { rewrite !mod3600_div60 by lia. by rewrite He. }
    unfold format_friendly_duration. fold s1 s2.
    destruct (Z.leb_spec s1 0); [lia|]. destruct (Z.leb_spec s2 0); [lia|].
    cbv zeta.
    rewrite !Z.rem_mod_nonneg, !Z.quot_div_nonneg by lia.
    by rewrite Eh, Em.
Qed.

Lemma format_friendly_duration_minutes_witness :
  (NS_PER_SEC <= dur_ns (mkDuration (3661 * NS_PER_SEC)) /\
   NS_PER_SEC <= dur_ns (mkDuration (3719 * NS_PER_SEC))) /\
  format_friendly_duration (mkDuration (3661 * NS_PER_SEC))
    = format_friendly_duration (mkDuration (3719 * NS_PER_SEC)).
Proof.
  assert (H1 : NS_PER_SEC <= dur_ns (mkDuration (3661 * NS_PER_SEC))) by (vm_compute; discriminate).
  assert (H2 : NS_PER_SEC <= dur_ns (mkDuration (3719 * NS_PER_SEC))) by (vm_compute; discriminate).
  split; [split; assumption|].
  apply (format_friendly_duration_minutes _ _ H1 H2). vm_compute. reflexivity.
Defined.

Lemma digits_value_read acc s :
  digits_value acc s = match read_digits acc s with (v, EmptyString) => Some v | _ => None end.
Proof.
  revert acc. induction s as [|c s IH]; intros acc; [reflexivity|].
  simpl. destruct (ascii_digit c); [apply IH | reflexivity].
Qed.

Lemma digits_value_pretty n : 0 <= n -> digits_value 0 (pretty n) = Some n.
Proof. intros Hn. rewrite digits_value_read, read_pretty_end by exact Hn. reflexivity. Qed.

Lemma pretty_head_digit n : 0 <= n ->
  exists c rest d, pretty n = String c rest /\ ascii_digit c = Some d.
Proof.
  intros Hn. pose proof (read_pretty_end n Hn) as Hr.
  destruct (pretty n) as [|c rest] eqn:Hp.
  - exfalso. simpl in Hr. injection Hr as <-. discriminate Hp.
  - destruct (ascii_digit c) as [d|] eqn:Hc; [by exists c, rest, d|].
    rewrite read_digits_stop in Hr by exact Hc. discriminate.
Qed.

Lemma ascii_digit_not_sign c d : ascii_digit c = Some d ->
  Ascii.eqb c "+"%char = false /\ Ascii.eqb c "-"%char = false.
Proof.
  intros Hc. split; destruct (Ascii.eqb_spec c "+"%char); destruct (Ascii.eqb_spec c "-"%char);
    subst; try reflexivity; discriminate.
Qed.

Lemma int_from_str_nonneg sg lo hi n : 0 <= n ->
  int_from_str sg lo hi (pretty n) = if (lo <=? n) && (n <=? hi) then Some n else None.
Proof.
  intros Hn. pose proof (digits_value_pretty n Hn) as Hv.
  destruct (pretty_head_digit n Hn) as (c & rest & d & Hp & Hc).
  destruct (ascii_digit_not_sign c d Hc) as [Hplus Hminus].
  unfold int_from_str. rewrite Hp. rewrite Hp in Hv.
  rewrite Hplus, Hminus. cbv beta iota zeta delta [orb andb]. rewrite Hv. reflexivity.
Qed.

(** [str::parse::<i64>] reads back the decimal rendering of exactly the
    i64 values: [parse_i64 (n.to_string())] is [Some n] inside the i64 range
    and [None] outside it, for negative numbers too. *)
Theorem parse_i64_pretty (n : Z) :
  parse_i64 (pretty n) = if i64_in_range n then Some n else None.
Proof.
  unfold parse_i64, i64_in_range.
  destruct n as [|p|p].
  - apply int_from_str_nonneg. lia.
  - apply int_from_str_nonneg. lia.
  - change (pretty (Z.neg p)) with (String "-" (pretty (Z.pos p))).
    pose proof (digits_value_pretty (Z.pos p) ltac:(lia)) as Hv.
    destruct (pretty_head_digit (Z.pos p) ltac:(lia)) as (c & rest & d & Hp & Hc).
    unfold int_from_str. rewrite Hp. rewrite Hp in Hv. rewrite Hv. reflexivity.
Qed.

(** [str::parse::<u64>] reads back the decimal rendering of exactly the
    u64 values; the rendering of a negative number is refused. *)
Theorem parse_u64_pretty (n : Z) :
  parse_u64 (pretty n) = if (0 <=? n) && (n <=? U64_MAX) then Some n else None.
Proof.
  unfold parse_u64.
  destruct (Z_le_gt_dec 0 n) as [Hn|Hn].
  - apply int_from_str_nonneg. exact Hn.
  - destruct n as [|p|p]; try lia.
    change (pretty (Z.neg p)) with (String "-" (pretty (Z.pos p))).
    destruct (pretty_head_digit (Z.pos p) ltac:(lia)) as (c & rest & d & Hp & Hc).
    unfold int_from_str. rewrite Hp. reflexivity.
Qed.

(** [Config::from_env] with every numeric variable set to a decimal number:
    a value in the field's range (i64 for [SAS_TTL] and [RECHECK], u64 for
    [PULL_INTERVAL]) is taken as it is, any other falls back to the field's
    default (2, 1, 10) without an error; only [SA_MAP] is required. *)
Theorem Config_from_env_decimal (env : string -> option string) (root : string) (ttl recheck pull : Z) :
  env "SA_MAP"%string = Some root ->
  env "SAS_TTL"%string = Some (pretty ttl) ->
  env "RECHECK"%string = Some (pretty recheck) ->
  env "PULL_INTERVAL"%string = Some (pretty pull) ->
  Config_from_env env =
    Ok (mkConfig root
          (if i64_in_range ttl then ttl else 2)
          (if i64_in_range recheck then recheck else 1)
          (if (0 <=? pull) && (pull <=? U64_MAX) then pull else 10)).
Proof.
  intros Hroot Httl Hre Hpull. unfold Config_from_env, parse_env.
  rewrite Hroot, Httl, Hre, Hpull, !parse_i64_pretty, parse_u64_pretty.
  by destruct (i64_in_range ttl), (i64_in_range recheck), ((0 <=? pull) && (pull <=? U64_MAX)).
Qed.


Lemma Config_from_env_decimal_witness :
  Config_from_env env_example = Ok (mkConfig "accounts" 24 (-3) 10).
Proof.
  exact (Config_from_env_decimal env_example "accounts" 24 (-3) (-1)
           eq_refl eq_refl eq_refl eq_refl).
Defined.


Ltac dm_unfold :=
  unfold mbind, DM_bind, dbind, dtry, drequest, dnow, dexpect, dret, dlog, demit, dthrow, dmap_err in *.


Lemma check_ttl_run parse cm rh w tr :
  check_ttl parse cm rh w tr =
  (match dw_get_cm w cm with
   | Ok c =>
       match cm_expiry c with
       | Some es =>
           match parse es with
           | Some e =>
               let remaining := odt_utc_ns e - odt_utc_ns (w_now_utc (dw_issuer w)) in
               if Z.ltb 0 remaining then
                 match Duration_hours rh with
                 | Some h => if Z.ltb (dur_ns h) remaining then Done (Valid (mkDuration remaining)) else Done NeedsRegen
                 | None => Panic "overflow constructing `time::Duration`"
                 end
               else Done NeedsRegen
           | None => Done NeedsRegen
           end
       | None => Done NeedsRegen
       end
   | Err _ => Done NeedsRegen
   end, tr ++ [DGetCM cm]).
Proof.
  unfold check_ttl, cm_expiry. dm_unfold.
  destruct (dw_get_cm w cm) as [c|ke]; [|reflexivity].
  destruct (match cm_data c with Some d => d !! "expiry"%string | None => None end); [|reflexivity].
  destruct (parse s); [|reflexivity].
  destruct (Z.ltb 0 _); [|reflexivity].
  destruct (Duration_hours rh); [|reflexivity].
  destruct (Z.ltb _ _); reflexivity.
Qed.

(** The only effect of [check_ttl] is one get of the ConfigMap it is
    given, and it never returns an error. *)
Lemma check_ttl_trace parse cm rh w tr :
  snd (check_ttl parse cm rh w tr) = tr ++ [DGetCM cm] /\
  forall e, fst (check_ttl parse cm rh w tr) <> Fail e.
Proof.
  rewrite check_ttl_run. split; [reflexivity|]. intros err. simpl.
  destruct (dw_get_cm w cm) as [c|]; [|discriminate].
  destruct (cm_expiry c) as [es|]; [|discriminate].
  destruct (parse es); [|discriminate].
  destruct (Z.ltb 0 _); [|discriminate].
  destruct (Duration_hours rh); [|discriminate].
  destruct (Z.ltb _ _); discriminate.
Qed.

(** [check_ttl] never returns an error: a failed get, a missing data map or
    key, an unparsable expiry all answer [NeedsRegen]; its only effect is
    one get of the ConfigMap it is given. *)
Theorem check_ttl_never_fails parse cm rh w tr :
  snd (check_ttl parse cm rh w tr) = tr ++ [DGetCM cm] /\
  (forall e, fst (check_ttl parse cm rh w tr) <> Fail e) /\
  ((exists ke, dw_get_cm w cm = Err ke) ->
   fst (check_ttl parse cm rh w tr) = Done NeedsRegen) /\
  (forall c, dw_get_cm w cm = Ok c -> cm_data c = None ->
   fst (check_ttl parse cm rh w tr) = Done NeedsRegen) /\
  (forall c d, dw_get_cm w cm = Ok c -> cm_data c = Some d -> d !! "expiry"%string = None ->
   fst (check_ttl parse cm rh w tr) = Done NeedsRegen) /\
  (forall c es, dw_get_cm w cm = Ok c -> cm_expiry c = Some es -> parse es = None ->
   fst (check_ttl parse cm rh w tr) = Done NeedsRegen).
Proof.
  rewrite check_ttl_run. cbn [fst snd]. split; [reflexivity|]. split.
  - intros err.
    destruct (dw_get_cm w cm) as [c|]; [|discriminate].
    destruct (cm_expiry c) as [es|]; [|discriminate].
    destruct (parse es); [|discriminate].
    destruct (Z.ltb 0 _); [|discriminate].
    destruct (Duration_hours rh); [|discriminate].
    destruct (Z.ltb _ _); discriminate.
  - split; [intros [ke ->]; reflexivity|].
    split; [intros c Hc Hd; rewrite Hc; unfold cm_expiry; rewrite Hd; reflexivity|].
    split; [intros c d Hc Hd Hk; rewrite Hc; unfold cm_expiry; rewrite Hd, Hk; reflexivity|].
    intros c es Hc Hes Hp. rewrite Hc, Hes, Hp. reflexivity.
Qed.

Lemma check_ttl_never_fails_witness :
  fst (check_ttl parse_none "missing" 1 dworld_example []) = Done NeedsRegen /\
  fst (check_ttl parse_none "accounts" 1 dworld_example []) = Done NeedsRegen /\
  fst (check_ttl parse_none "acct-cont" 1 dworld_example []) = Done NeedsRegen.
Proof.
  split; [|split].
  - destruct (check_ttl_never_fails parse_none "missing" 1 dworld_example []) as (_ & _ & H & _).
    apply H. eexists. reflexivity.
  - destruct (check_ttl_never_fails parse_none "accounts" 1 dworld_example []) as (_ & _ & _ & _ & H & _).
    apply (H _ (<["acct" := "cont"]> ∅)%string eq_refl eq_refl). reflexivity.
  - destruct (check_ttl_never_fails parse_none "acct-cont" 1 dworld_example []) as (_ & _ & _ & _ & _ & H).
    apply (H _ "later"%string eq_refl); reflexivity.
Defined.

(** [check_ttl] answers [Valid r] exactly when the ConfigMap is read, its
    [expiry] entry parses as [e], [r = e - now] is positive and longer than
    [Duration::hours(recheck_hours)]. *)
Theorem check_ttl_valid parse cm rh w tr r :
  fst (check_ttl parse cm rh w tr) = Done (Valid r) <->
  exists c es e h,
    dw_get_cm w cm = Ok c /\ cm_expiry c = Some es /\ parse es = Some e /\
    Duration_hours rh = Some h /\
    r = mkDuration (odt_utc_ns e - odt_utc_ns (w_now_utc (dw_issuer w))) /\
    0 < dur_ns r /\ dur_ns h < dur_ns r.
Proof.
  rewrite check_ttl_run. simpl. split.
  - destruct (dw_get_cm w cm) as [c|]; [|discriminate].
    destruct (cm_expiry c) as [es|] eqn:Hes; [|discriminate].
    destruct (parse es) as [e|] eqn:He; [|discriminate].
    destruct (Z.ltb_spec 0 (odt_utc_ns e - odt_utc_ns (w_now_utc (dw_issuer w)))); [|discriminate].
    destruct (Duration_hours rh) as [h|] eqn:Hh; [|discriminate].
    destruct (Z.ltb_spec (dur_ns h) (odt_utc_ns e - odt_utc_ns (w_now_utc (dw_issuer w)))); [|discriminate].
    intros Hv. injection Hv as <-. exists c, es, e, h. simpl. auto 10.
  - intros (c & es & e & h & Hc & Hes & He & Hh & -> & Hp & Hlt). simpl in Hp, Hlt.
    rewrite Hc, Hes, He, Hh.
    destruct (Z.ltb_spec 0 (odt_utc_ns e - odt_utc_ns (w_now_utc (dw_issuer w)))); [|lia].
    destruct (Z.ltb_spec (dur_ns h) (odt_utc_ns e - odt_utc_ns (w_now_utc (dw_issuer w)))); [|lia].
    reflexivity.
Qed.

(** [check_ttl] panics only through [Duration::hours(recheck_hours)]
    overflowing, and only when a readable expiry still lies in the future:
    for an expired or unreadable token the [&&] never evaluates it. *)
Theorem check_ttl_panic parse cm rh w tr msg :
  fst (check_ttl parse cm rh w tr) = Panic msg <->
  msg = "overflow constructing `time::Duration`"%string /\ Duration_hours rh = None /\
  exists c es e,
    dw_get_cm w cm = Ok c /\ cm_expiry c = Some es /\ parse es = Some e /\
    0 < odt_utc_ns e - odt_utc_ns (w_now_utc (dw_issuer w)).
Proof.
  rewrite check_ttl_run. simpl. split.
  - destruct (dw_get_cm w cm) as [c|]; [|discriminate].
    destruct (cm_expiry c) as [es|] eqn:Hes; [|discriminate].
    destruct (parse es) as [e|] eqn:He; [|discriminate].
    destruct (Z.ltb_spec 0 (odt_utc_ns e - odt_utc_ns (w_now_utc (dw_issuer w)))); [|discriminate].
    destruct (Duration_hours rh) as [h|] eqn:Hh.
    + destruct (Z.ltb _ _); discriminate.
    + intros Hm. injection Hm as <-. split; [reflexivity|]. split; [reflexivity|].
      exists c, es, e. auto.
  - intros (-> & Hh & c & es & e & Hc & Hes & He & Hp).
    rewrite Hc, Hes, He, Hh.
    destruct (Z.ltb_spec 0 (odt_utc_ns e - odt_utc_ns (w_now_utc (dw_issuer w)))); [|lia].
    reflexivity.
Qed.

Lemma process_storage_account_run parse a c cfg w tr :
  process_storage_account parse a c cfg w tr =
  let n := (a ++ "-" ++ c)%string in
  let ck := check_ttl parse n (recheck_hours cfg) w tr in
  match fst ck with
  | Done (Valid _) => (Done tt, snd ck ++ [DLog Info "Token still valid"])
  | Done NeedsRegen =>
      let g := generate_container_sas a c (validity_hours cfg) (dw_issuer w) [] in
      let tr3 := snd ck ++ [DLog Info "Generating new SAS token..."] ++ map DIssuer (snd g) in
      match fst g with
      | Done (tok, e) =>
          match Rfc3339_format e with
          | Some s =>
              let tr4 := tr3 ++ [DPatchCM n (mkPatchParams (Some "sas-generator"%string) false)
                                   (mkConfigMap (Some n) (Some (configmap_data tok a c s)))] in
              match dw_patch_cm w n with
              | Ok _ => (Done tt, tr4 ++ [DLog Info "SAS token updated"])
              | Err ke => (Fail [kube_error_to_string ke], tr4)
              end
          | None => (Fail ["RFC3339 format error"%string], tr3)
          end
      | Fail err => (Fail err, tr3)
      | Panic m => (Panic m, tr3)
      end
  | Fail err => (Fail err, snd ck)
  | Panic m => (Panic m, snd ck)
  end.
Proof.
  unfold process_storage_account. dm_unfold. unfold issuer, format_or_fail. cbv zeta.
  destruct (check_ttl parse _ _ w tr) as [[[r|]|err|m] tr1]; simpl; try reflexivity.
  destruct (generate_container_sas a c (validity_hours cfg) (dw_issuer w) []) as [[[tok e]|err|m] itr];
    simpl; try (rewrite <- app_assoc; reflexivity).
  destruct (Rfc3339_format e) as [s|]; simpl; [|rewrite <- app_assoc; reflexivity].
  destruct (dw_patch_cm w _); simpl; rewrite <- !app_assoc; reflexivity.
Qed.

Lemma cm_writes_app l1 l2 : cm_writes (l1 ++ l2) = cm_writes l1 ++ cm_writes l2.
Proof. unfold cm_writes. apply omap_app. Qed.

Lemma cm_writes_issuer l : cm_writes (map DIssuer l) = [].
Proof. induction l; [reflexivity | exact IHl]. Qed.

Lemma issuer_calls_app l1 l2 : issuer_calls (l1 ++ l2) = issuer_calls l1 ++ issuer_calls l2.
Proof. unfold issuer_calls. rewrite omap_app. apply attempt_windows_app. Qed.

Lemma issuer_calls_issuer l : issuer_calls (map DIssuer l) = attempt_windows l.
Proof.
  unfold issuer_calls. f_equal. induction l as [|x l IH]; [reflexivity|].
  exact (f_equal (cons x) IH).
Qed.

(** When [check_ttl] finds the stored token still valid,
    [process_storage_account] only logs: it makes no issuance call and
    writes no ConfigMap. *)
Theorem process_storage_account_valid parse a c cfg w tr r :
  fst (check_ttl parse (a ++ "-" ++ c) (recheck_hours cfg) w tr) = Done (Valid r) ->
  process_storage_account parse a c cfg w tr =
    (Done tt, tr ++ [DGetCM (a ++ "-" ++ c); DLog Info "Token still valid"]).
Proof.
  intros Hv. rewrite process_storage_account_run. cbv zeta. rewrite Hv.
  destruct (check_ttl_trace parse (a ++ "-" ++ c)%string (recheck_hours cfg) w tr) as [Hs _].
  rewrite Hs, <- app_assoc. reflexivity.
Qed.

(** A regeneration that succeeds writes one ConfigMap [account-container],
    by an unforced server-side apply from field manager [sas-generator],
    whose data holds the token just issued, its expiry in RFC 3339, the
    account and the container. *)
Theorem process_storage_account_regenerates parse a c cfg w tr tok e itr s :
  fst (check_ttl parse (a ++ "-" ++ c) (recheck_hours cfg) w tr) = Done NeedsRegen ->
  generate_container_sas a c (validity_hours cfg) (dw_issuer w) [] = (Done (tok, e), itr) ->
  Rfc3339_format e = Some s ->
  dw_patch_cm w (a ++ "-" ++ c) = Ok tt ->
  let n := (a ++ "-" ++ c)%string in
  let data := configmap_data tok a c s in
  process_storage_account parse a c cfg w tr =
    (Done tt, tr ++ [DGetCM n; DLog Info "Generating new SAS token..."] ++ map DIssuer itr ++
              [DPatchCM n (mkPatchParams (Some "sas-generator"%string) false) (mkConfigMap (Some n) (Some data));
               DLog Info "SAS token updated"]) /\
  data !! "sas_token"%string = Some tok /\ data !! "expiry"%string = Some s /\
  data !! "account"%string = Some a /\ data !! "container"%string = Some c /\
  dom data = {[ "sas_token"; "expiry"; "account"; "container" ]}%string.
Proof.
  intros Hck Hg Hf Hp n data. split.
  - rewrite process_storage_account_run. cbv zeta. rewrite Hck, Hg. cbn [fst snd].
    rewrite Hf, Hp.
    destruct (check_ttl_trace parse (a ++ "-" ++ c)%string (recheck_hours cfg) w tr) as [Hs _].
    rewrite Hs. rewrite <- !app_assoc. reflexivity.
  - unfold data, configmap_data. split; [by simplify_map_eq|]. split; [by simplify_map_eq|].
    split; [by simplify_map_eq|]. split; [by simplify_map_eq|].
    rewrite !dom_insert_L, dom_empty_L. set_solver.
Qed.

(** What a run of [process_storage_account] does beyond the get: without a
    regeneration it calls no issuer and writes nothing; with one, its
    issuance calls are those of [generate_container_sas], and it writes at
    most one ConfigMap, [account-container], only once issuance returned a
    token and its expiry was formatted, with that token and expiry. *)
Theorem process_storage_account_effects parse a c cfg w tr :
  let n := (a ++ "-" ++ c)%string in
  let g := generate_container_sas a c (validity_hours cfg) (dw_issuer w) [] in
  exists tr', snd (process_storage_account parse a c cfg w tr) = tr ++ DGetCM n :: tr' /\
  ((issuer_calls tr' = [] /\ cm_writes tr' = []) \/
   (fst (check_ttl parse n (recheck_hours cfg) w tr) = Done NeedsRegen /\
    issuer_calls tr' = attempt_windows (snd g) /\
    (cm_writes tr' = [] \/
     exists tok e s, fst g = Done (tok, e) /\ Rfc3339_format e = Some s /\
       cm_writes tr' = [(n, mkConfigMap (Some n) (Some (configmap_data tok a c s)))]))).
Proof.
  intros n g. rewrite process_storage_account_run. cbv zeta.
  destruct (check_ttl_trace parse n (recheck_hours cfg) w tr) as [Hs _]. fold n.
  rewrite Hs.
  destruct (fst (check_ttl parse n (recheck_hours cfg) w tr)) as [[r|]|err|m] eqn:Hck.
  - exists [DLog Info "Token still valid"]. rewrite <- app_assoc. split; [reflexivity|].
    left. split; reflexivity.
  - fold g.
    destruct (fst g) as [[tok e]|err|m] eqn:Hg.
    + destruct (Rfc3339_format e) as [s|] eqn:Hf.
      * destruct (dw_patch_cm w n).
        -- eexists. rewrite <- !app_assoc. split; [reflexivity|]. right.
           split; [reflexivity|].
           rewrite !issuer_calls_app, issuer_calls_issuer.
           split; [change (issuer_calls [DLog Info "Generating new SAS token..."]) with (@nil (nat * OffsetDateTime * OffsetDateTime));
                   rewrite ?app_nil_l; try (change (issuer_calls [DLog Info "SAS token updated"]) with (@nil (nat * OffsetDateTime * OffsetDateTime))); simpl; rewrite ?app_nil_r; reflexivity|].
           right. exists tok, e, s. split; [reflexivity|]. split; [exact Hf|].
           rewrite !cm_writes_app, cm_writes_issuer. reflexivity.
        -- eexists. rewrite <- !app_assoc. split; [reflexivity|]. right.
           split; [reflexivity|].
           rewrite !issuer_calls_app, issuer_calls_issuer.
           split; [change (issuer_calls [DLog Info "Generating new SAS token..."]) with (@nil (nat * OffsetDateTime * OffsetDateTime));
                   rewrite ?app_nil_l; try (change (issuer_calls [DLog Info "SAS token updated"]) with (@nil (nat * OffsetDateTime * OffsetDateTime))); simpl; rewrite ?app_nil_r; reflexivity|].
           right. exists tok, e, s. split; [reflexivity|]. split; [exact Hf|].
           rewrite !cm_writes_app, cm_writes_issuer. reflexivity.
      * eexists. rewrite <- !app_assoc. split; [reflexivity|]. right.
        split; [reflexivity|].
        rewrite !issuer_calls_app, issuer_calls_issuer.
           split; [change (issuer_calls [DLog Info "Generating new SAS token..."]) with (@nil (nat * OffsetDateTime * OffsetDateTime));
                   rewrite ?app_nil_l; try (change (issuer_calls [DLog Info "SAS token updated"]) with (@nil (nat * OffsetDateTime * OffsetDateTime))); simpl; rewrite ?app_nil_r; reflexivity|].
        left. rewrite !cm_writes_app, cm_writes_issuer. reflexivity.
    + eexists. rewrite <- !app_assoc. split; [reflexivity|]. right.
      split; [reflexivity|].
      rewrite !issuer_calls_app, issuer_calls_issuer.
           split; [change (issuer_calls [DLog Info "Generating new SAS token..."]) with (@nil (nat * OffsetDateTime * OffsetDateTime));
                   rewrite ?app_nil_l; try (change (issuer_calls [DLog Info "SAS token updated"]) with (@nil (nat * OffsetDateTime * OffsetDateTime))); simpl; rewrite ?app_nil_r; reflexivity|].
      left. rewrite !cm_writes_app, cm_writes_issuer. reflexivity.
    + eexists. rewrite <- !app_assoc. split; [reflexivity|]. right.
      split; [reflexivity|].
      rewrite !issuer_calls_app, issuer_calls_issuer.
           split; [change (issuer_calls [DLog Info "Generating new SAS token..."]) with (@nil (nat * OffsetDateTime * OffsetDateTime));
                   rewrite ?app_nil_l; try (change (issuer_calls [DLog Info "SAS token updated"]) with (@nil (nat * OffsetDateTime * OffsetDateTime))); simpl; rewrite ?app_nil_r; reflexivity|].
      left. rewrite !cm_writes_app, cm_writes_issuer. reflexivity.
  - destruct (check_ttl_trace parse n (recheck_hours cfg) w tr) as [_ Hnf].
    exfalso. exact (Hnf err Hck).
  - exists []. split; [reflexivity|]. left. split; reflexivity.
Qed.




Lemma process_storage_account_valid_witness :
  fst (check_ttl (parse_const t_later) "acct-cont" 1 dworld_example [])
    = Done (Valid (mkDuration (36000 * NS_PER_SEC))) /\
  process_storage_account (parse_const t_later) "acct" "cont" cfg_example dworld_example []
    = (Done tt, [DGetCM "acct-cont"; DLog Info "Token still valid"]).
Proof.
  assert (H : fst (check_ttl (parse_const t_later) "acct-cont" 1 dworld_example [])
              = Done (Valid (mkDuration (36000 * NS_PER_SEC)))) by (vm_compute; reflexivity).
  split; [exact H|].
  exact (process_storage_account_valid (parse_const t_later) "acct" "cont" cfg_example dworld_example [] _ H).
Defined.

Lemma process_storage_account_regenerates_witness :
  fst (check_ttl parse_none "acct-cont" 1 dworld_example []) = Done NeedsRegen /\
  generate_container_sas "acct" "cont" 2 world_first_issue []
    = (Done ("TOK"%string, mkODT ((1700000000 + 7200) * NS_PER_SEC) 0),
       snd (generate_container_sas "acct" "cont" 2 world_first_issue [])) /\
  Rfc3339_format (mkODT ((1700000000 + 7200) * NS_PER_SEC) 0) = Some "2023-11-15T00:13:20Z"%string /\
  cm_writes (snd (process_storage_account parse_none "acct" "cont" cfg_example dworld_example []))
    = [("acct-cont"%string, mkConfigMap (Some "acct-cont"%string)
         (Some (configmap_data "TOK" "acct" "cont" "2023-11-15T00:13:20Z")))].
Proof.
  assert (H1 : fst (check_ttl parse_none "acct-cont" 1 dworld_example []) = Done NeedsRegen)
    by (vm_compute; reflexivity).
  assert (H2 : generate_container_sas "acct" "cont" 2 world_first_issue []
    = (Done ("TOK"%string, mkODT ((1700000000 + 7200) * NS_PER_SEC) 0),
       snd (generate_container_sas "acct" "cont" 2 world_first_issue []))) by (vm_compute; reflexivity).
  assert (H3 : Rfc3339_format (mkODT ((1700000000 + 7200) * NS_PER_SEC) 0) = Some "2023-11-15T00:13:20Z"%string)
    by (vm_compute; reflexivity).
  split; [exact H1|]. split; [exact H2|]. split; [exact H3|].
  destruct (process_storage_account_regenerates parse_none "acct" "cont" cfg_example dworld_example []
              _ _ _ _ H1 H2 H3 eq_refl) as [Hrun _].
  rewrite Hrun. cbn [snd]. rewrite !cm_writes_app, cm_writes_issuer. reflexivity.
Defined.

Lemma spawn_all_run l w tr :
  spawn_all l w tr = (Done tt, tr ++ map (fun '(a, c) => DSpawn a c) l).
Proof.
  revert tr. induction l as [|[a c] l IH]; intros tr.
  - simpl. rewrite app_nil_r. reflexivity.
  - simpl. unfold mbind, DM_bind, dbind, demit. rewrite IH, <- app_assoc. reflexivity.
Qed.

Lemma spawned_app l1 l2 : spawned (l1 ++ l2) = spawned l1 ++ spawned l2.
Proof. unfold spawned. apply omap_app. Qed.

Lemma spawned_map l : spawned (map (fun '(a, c) => DSpawn a c) l) = l.
Proof.
  induction l as [|[a c] l IH]; [reflexivity|]. exact (f_equal (cons (a, c)) IH).
Qed.

(** [pull_accounts] never fails: when the root ConfigMap cannot be read it
    logs a warning and spawns nothing. *)
Theorem pull_accounts_get_error cfg w tr ke :
  dw_get_cm w (root_cm_name cfg) = Err ke ->
  pull_accounts cfg w tr =
    (Done tt, tr ++ [DGetCM (root_cm_name cfg); DLog Warn "Failed to fetch root ConfigMap"]).
Proof.
  intros He. unfold pull_accounts. dm_unfold. rewrite He. rewrite <- app_assoc. reflexivity.
Qed.

(** When the root ConfigMap is read, [pull_accounts] succeeds and spawns
    one task per entry of its data (none for a ConfigMap without data):
    account [a] is processed with container [c] exactly when the data maps
    [a] to [c], and no account is spawned twice. *)
Theorem pull_accounts_spawns cfg w tr root :
  dw_get_cm w (root_cm_name cfg) = Ok root ->
  let r := pull_accounts cfg w tr in
  let data := unwrap_or (cm_data root) ∅ in
  fst r = Done tt /\
  spawned (snd r) = spawned tr ++ map_to_list data /\
  (forall a c, (a, c) ∈ spawned (snd r) <-> (a, c) ∈ spawned tr \/ data !! a = Some c) /\
  NoDup (map fst (map_to_list data)).
Proof.
  intros Hg r data. unfold r, pull_accounts. dm_unfold. rewrite Hg.
  rewrite spawn_all_run. cbn [fst snd].
  rewrite !spawned_app, spawned_map.
  change (spawned [DGetCM (root_cm_name cfg)]) with (@nil (string * string)).
  rewrite app_nil_r.
  split; [reflexivity|]. split; [reflexivity|split].
  - intros a c. rewrite elem_of_app, elem_of_map_to_list. reflexivity.
  - apply NoDup_fst_map_to_list.
Qed.

Lemma pull_accounts_spawns_witness :
  dw_get_cm dworld_example (root_cm_name cfg_example)
    = Ok (mkConfigMap (Some "accounts"%string) (Some (<["acct" := "cont"]> ∅)))%string /\
  spawned (snd (pull_accounts cfg_example dworld_example [])) = [("acct", "cont")]%string.
Proof.
  assert (H : dw_get_cm dworld_example (root_cm_name cfg_example)
    = Ok (mkConfigMap (Some "accounts"%string) (Some (<["acct" := "cont"]> ∅)))%string) by reflexivity.
  split; [exact H|].
  destruct (pull_accounts_spawns cfg_example dworld_example [] _ H) as (_ & Hs & _).
  rewrite Hs. vm_compute. reflexivity.
Defined.

Lemma pull_accounts_get_error_witness :
  dw_get_cm dworld_example "missing" = Err (KubeApi 404 "configmaps not found") /\
  pull_accounts (mkConfig "missing" 2 1 10) dworld_example []
    = (Done tt, [DGetCM "missing"; DLog Warn "Failed to fetch root ConfigMap"]).
Proof.
  assert (H : dw_get_cm dworld_example "missing" = Err (KubeApi 404 "configmaps not found")) by reflexivity.
  split; [exact H|].
  exact (pull_accounts_get_error (mkConfig "missing" 2 1 10) dworld_example [] _ H).
Defined.



Lemma no_write_nil l : Forall (fun ev => is_write ev = false) l ->
  status_patches l = [] /\ secret_writes l = [].
Proof.
  induction 1 as [|ev l Hev _ [IH1 IH2]]; [split; reflexivity|].
  destruct ev; try discriminate Hev; split; assumption.
Qed.

Lemma ensure_secret_writes g ctx w :
  let r := ensure_secret g ctx w [] in
  status_patches (snd r) = [] /\
  (secret_writes (snd r) = [] \/
   exists oref, controller_owner_ref g = Some oref /\ secret_writes (snd r) = [desired_secret g oref]) /\
  (fst r = Done tt ->
   exists oref, controller_owner_ref g = Some oref /\ secret_writes (snd r) = [desired_secret g oref]).
Proof.
  cbv zeta. rewrite ensure_secret_run. cbv zeta.
  destruct (controller_owner_ref g) as [oref|].
  2:{ split; [reflexivity|]. split; [left; reflexivity|]. discriminate. }
  destruct (w_get_secret w) as [[]|[code msg|msg]].
  - destruct (w_patch_secret w); cbn;
      (split; [reflexivity|]; split; [right; exists oref; split; reflexivity|]);
      [intros _; exists oref; split; reflexivity | discriminate].
  - destruct (Z.eqb code 404).
    + destruct (w_create_secret w); cbn;
        (split; [reflexivity|]; split; [right; exists oref; split; reflexivity|]);
        [intros _; exists oref; split; reflexivity | discriminate].
    + cbn. split; [reflexivity|]. split; [left; reflexivity|]. discriminate.
  - cbn. split; [reflexivity|]. split; [left; reflexivity|]. discriminate.
Qed.

Lemma status_patches_app l1 l2 : status_patches (l1 ++ l2) = status_patches l1 ++ status_patches l2.
Proof. apply omap_app. Qed.
Lemma secret_writes_app l1 l2 : secret_writes (l1 ++ l2) = secret_writes l1 ++ secret_writes l2.
Proof. apply omap_app. Qed.
Lemma status_patches_log lv m l : status_patches (EvLog lv m :: l) = status_patches l.
Proof. reflexivity. Qed.
Lemma secret_writes_log lv m l : secret_writes (EvLog lv m :: l) = secret_writes l.
Proof. reflexivity. Qed.

(** The order of a reconciliation's writes: it writes at most one Secret;
    it patches the status only once [ensure_secret] has returned [Ok], then
    exactly once and after the Secret write, and the status it writes names
    as its target Secret the Secret just written. *)
Theorem reconcile_write_order parse g ctx w :
  let tr := snd (reconcile parse g ctx w []) in
  (status_patches tr = [] /\ length (secret_writes tr) <= 1)%nat \/
  (fst (ensure_secret g ctx w []) = Done tt /\
   exists pre post s o st,
     tr = pre ++ post /\ secret_writes pre = [s] /\ status_patches pre = [] /\
     secret_writes post = [] /\ status_patches post = [o] /\
     status o = Some st /\ target_secret st = sec_name s).
Proof.
  cbv zeta. rewrite reconcile_run. cbv zeta.
  pose proof (should_regenerate_logs (E := ReconcileError) parse (w_now_utc w) (status g)
                (unwrap_or (sas_renewal_hours (spec g)) (ctx_sas_renewal_hours ctx)) w) as [Hl _].
  apply log_no_write, no_write_nil in Hl as [Hl1 Hl2].
  pose proof (generate_token_info_no_write (storage_account (spec g)) (container_name (spec g))
                (unwrap_or (sas_ttl_hours (spec g)) (ctx_sas_ttl_hours ctx)) w) as Hg.
  apply no_write_nil in Hg as [Hg1 Hg2].
  destruct (should_regenerate _ _ _ _ w []) as [[[|]|e|m] x]; cbn [snd] in *.
  2, 3, 4: left; rewrite status_patches_log, secret_writes_log, Hl1, Hl2; split; [reflexivity | simpl; lia].
  destruct (generate_token_info _ _ _ _ w []) as [[ti|e|m] y]; cbn [snd] in *.
  2, 3: left; rewrite status_patches_log, secret_writes_log, status_patches_app, secret_writes_app,
          Hl1, Hl2, Hg1, Hg2; split; [reflexivity | simpl; lia].
  destruct (ensure_secret_writes g ctx w) as (Hz1 & Hz2 & Hz3). cbv zeta in Hz1, Hz2, Hz3.
  destruct (ensure_secret g ctx w []) as [[[]|e|m] z] eqn:Hes; cbn [fst snd] in *.
  2, 3: left; rewrite status_patches_log, secret_writes_log, !status_patches_app, !secret_writes_app,
          status_patches_log, secret_writes_log, Hl1, Hl2, Hg1, Hg2, Hz1; split; [reflexivity|];
        destruct Hz2 as [Hz|(oref & _ & Hz)]; rewrite Hz; simpl; lia.
  right. split; [reflexivity|].
  destruct (Hz3 eq_refl) as (oref & Hor & Hz).
  set (ti_st := build_status ti (target_secret_name g None)).
  pose proof (update_crd_status_run g ctx ti_st w) as Hu. cbv zeta in Hu.
  destruct (update_crd_status g ctx ti_st w []) as [ou u].
  injection Hu as Hou Hu.
  set (pre := EvLog Info "Loaded SasGenerator spec and status" :: x ++ y ++ EvLog Info "Generated new SAS token" :: z).
  assert (Htr : EvLog Info "Loaded SasGenerator spec and status" :: x ++ y ++ EvLog Info "Generated new SAS token" :: z ++ u
                = pre ++ u) by (unfold pre; simpl; rewrite <- !app_assoc; reflexivity).
  assert (Hp1 : secret_writes pre = [desired_secret g oref]).
  { unfold pre. rewrite secret_writes_log, !secret_writes_app, secret_writes_log, Hl2, Hg2, Hz. reflexivity. }
  assert (Hp2 : status_patches pre = []).
  { unfold pre. rewrite status_patches_log, !status_patches_app, status_patches_log, Hl1, Hg1, Hz1. reflexivity. }
  assert (Hq : secret_writes u = [] /\
               status_patches u = [mkSasGenerator (mkMeta (Some (name_any g)) (meta_namespace (metadata g)) None)
                                     (spec g) (Some ti_st)]).
  { rewrite Hu. destruct (w_patch_status w); split; reflexivity. }
  destruct Hq as [Hq1 Hq2].
  destruct ou as [[]|e|m];
    (exists pre, u, (desired_secret g oref),
       (mkSasGenerator (mkMeta (Some (name_any g)) (meta_namespace (metadata g)) None) (spec g) (Some ti_st)),
       ti_st;
     split; [exact Htr|]; split; [exact Hp1|]; split; [exact Hp2|];
     split; [exact Hq1|]; split; [exact Hq2|]; split; reflexivity).
Qed.

(** Once [should_regenerate] answers [true] it keeps answering [true] at
    every later instant, for the same status and renewal window: the
    decision only moves from "not due" to "due" as time passes. *)
Theorem should_regenerate_monotone_now {E} parse (now1 now2 : OffsetDateTime) st r w tr :
  odt_utc_ns now1 <= odt_utc_ns now2 ->
  fst (should_regenerate (E := E) parse now1 st r w tr) = Done true ->
  fst (should_regenerate (E := E) parse now2 st r w tr) = Done true.
Proof.
  intros Hle. unfold should_regenerate.
  destruct (match st with Some s => expiry s | None => None end) as [x|]; [|tauto].
  destruct (parse x) as [e|]; [|tauto].
  unfold mbind, M_bind, bind, expect, ret, panic.
  destruct (Duration_hours r) as [d|]; [|tauto].
  destruct (odt_checked_sub e d) as [t|]; [|tauto].
  cbn [fst]. unfold odt_geb. intros H. injection H as H.
  apply Z.leb_le in H. f_equal. apply Z.leb_le. lia.
Qed.

(** A wider renewal window never turns a due regeneration into a not-due
    one: if [should_regenerate] answers [true] for [r1] hours, then for
    every [r2 >= r1] it answers [true] too, unless [Duration::hours(r2)] or
    [expiry - r2 hours] overflows and it panics. *)
Theorem should_regenerate_monotone_window {E} parse now st (r1 r2 : Z) w tr :
  r1 <= r2 ->
  fst (should_regenerate (E := E) parse now st r1 w tr) = Done true ->
  fst (should_regenerate (E := E) parse now st r2 w tr) = Done true \/
  exists m, fst (should_regenerate (E := E) parse now st r2 w tr) = Panic m.
Proof.
  intros Hle. unfold should_regenerate.
  destruct (match st with Some s => expiry s | None => None end) as [x|]; [|tauto].
  destruct (parse x) as [e|]; [|tauto].
  unfold mbind, M_bind, bind, expect, ret, panic.
  destruct (Duration_hours r1) as [d1|] eqn:Hd1; [|discriminate].
  destruct (odt_checked_sub e d1) as [t1|] eqn:Ht1; [|discriminate].
  destruct (Duration_hours r2) as [d2|] eqn:Hd2; [|right; eexists; reflexivity].
  destruct (odt_checked_sub e d2) as [t2|] eqn:Ht2; [|right; eexists; reflexivity].
  cbn [fst]. intros H. left. injection H as H. f_equal.
  unfold Duration_hours, i64_checked_mul in Hd1, Hd2.
  destruct (i64_in_range (r1 * 3600)); [|discriminate].
  destruct (i64_in_range (r2 * 3600)); [|discriminate].
  injection Hd1 as <-. injection Hd2 as <-.
  unfold odt_checked_sub in Ht1, Ht2. cbn [dur_ns] in Ht1, Ht2.
  destruct (local_in_range _); [|discriminate]. destruct (local_in_range _); [|discriminate].
  injection Ht1 as <-. injection Ht2 as <-.
  unfold odt_geb, odt_utc_ns in *. cbn [odt_local_ns odt_offset_s] in *.
  apply Z.leb_le in H. apply Z.leb_le. unfold NS_PER_SEC in *. lia.
Qed.

Lemma should_regenerate_monotone_now_witness :
  odt_utc_ns t0 <= odt_utc_ns t_later /\
  fst (should_regenerate (E := ReconcileError) (parse_const t_later) t_later
         (Some (mkStatus None None None (Some "x"%string))) 10 world_first_issue []) = Done true.
Proof.
  assert (H1 : odt_utc_ns t0 <= odt_utc_ns t_later) by (vm_compute; discriminate).
  assert (H2 : fst (should_regenerate (E := ReconcileError) (parse_const t_later) t0
         (Some (mkStatus None None None (Some "x"%string))) 10 world_first_issue []) = Done true)
    by (vm_compute; reflexivity).
  split; [exact H1|].
  exact (should_regenerate_monotone_now (parse_const t_later) t0 t_later _ _ _ _ H1 H2).
Defined.

Lemma should_regenerate_monotone_window_witness :
  fst (should_regenerate (E := ReconcileError) (parse_const t_later) t0
         (Some (mkStatus None None None (Some "x"%string))) 10 world_first_issue []) = Done true /\
  (fst (should_regenerate (E := ReconcileError) (parse_const t_later) t0
         (Some (mkStatus None None None (Some "x"%string))) 12 world_first_issue []) = Done true \/
   exists m, fst (should_regenerate (E := ReconcileError) (parse_const t_later) t0
         (Some (mkStatus None None None (Some "x"%string))) 12 world_first_issue []) = Panic m).
Proof.
  assert (H2 : fst (should_regenerate (E := ReconcileError) (parse_const t_later) t0
         (Some (mkStatus None None None (Some "x"%string))) 10 world_first_issue []) = Done true)
    by (vm_compute; reflexivity).
  split; [exact H2|].
  exact (should_regenerate_monotone_window (parse_const t_later) t0 _ 10 12 _ _ ltac:(lia) H2).
Defined.

Lemma retry_spawn_first_success (s e : OffsetDateTime) (w : World) (j : nat) :
  forall (l : list Z) (k : nat) (tok : string),
  (j <= length l)%nat ->
  (forall i, (k <= i < k + j)%nat -> exists err, w_attempt w i = Err err) ->
  w_attempt w (k + j) = Ok tok ->
  fst (retry_spawn l k (sas_attempt s e) w []) = Done tok /\
  attempt_windows (snd (retry_spawn l k (sas_attempt s e) w [])) = map (fun i => (i, s, e)) (seq k (S j)) /\
  sleeps (snd (retry_spawn l k (sas_attempt s e) w []))
    = map (fun '(i, d) => w_jitter w i d) (combine (seq k j) (firstn j l)).
Proof.
  induction j as [|j IH]; intros l k tok Hlen Hfail Hok.
  - rewrite Nat.add_0_r in Hok.
    destruct l as [|d l]; simpl; rewrite sas_attempt_run, Hok; simpl; repeat split; reflexivity.
  - destruct l as [|d l]; [simpl in Hlen; lia|].
    destruct (Hfail k ltac:(lia)) as [err Herr].
    simpl. rewrite sas_attempt_run, Herr. simpl.
    rewrite (frame_retry_spawn l (S k) _ (fun i => frame_sas_attempt s e i) w
               [EvGenerateClient k s e; EvLog Warn "SAS generation failed; retrying...";
                EvSleep (w_jitter w k d)]).
    destruct (IH l (S k) tok ltac:(simpl in Hlen; lia)) as (Hd & Hw & Hs).
    + intros i Hi. apply Hfail. lia.
    + rewrite <- Hok. f_equal. lia.
    + cbn [fst snd]. split; [exact Hd|]. split.
      * change (attempt_windows ([EvGenerateClient k s e; EvLog Warn "SAS generation failed; retrying...";
                EvSleep (w_jitter w k d)] ++ snd (retry_spawn l (S k) (sas_attempt s e) w []))
                = (k, s, e) :: map (fun i => (i, s, e)) (seq (S k) (S j))).
        rewrite attempt_windows_app, Hw. reflexivity.
      * rewrite sleeps_app, Hs. reflexivity.
Qed.

(** When issuance attempts [0 .. k-1] fail and attempt [k] succeeds, for
    [k] within the five retries, [generate_container_sas] returns attempt
    [k]'s token with the expiry it computed, after [k+1] remote calls on
    the one window and [k] waits, the [i]-th the jittered [i]-th delay of
    the backoff. *)
Theorem generate_container_sas_first_success a c h w (k : nat) tok d e :
  Duration_hours h = Some d ->
  odt_checked_add (w_now_utc w) d = Some e ->
  w_env w "AZURE_CLIENT_ID"%string <> None ->
  w_env w "AZURE_TENANT_ID"%string <> None ->
  (k <= 5)%nat ->
  (forall i, (i < k)%nat -> exists err, w_attempt w i = Err err) ->
  w_attempt w k = Ok tok ->
  let r := generate_container_sas a c h w [] in
  fst r = Done (tok, e) /\
  attempt_windows (snd r) = map (fun i => (i, w_now_utc w, e)) (seq 0 (S k)) /\
  sleeps (snd r) = map (fun '(i, ms) => w_jitter w i ms)
                       (combine (seq 0 k) (firstn k [1000; 30000; 30000; 30000; 30000])).
Proof.
  intros Hd He Hc Ht Hk Hfail Hok r. unfold r.
  rewrite generate_container_sas_run, Hd, He, create_credential_run.
  destruct (w_env w "AZURE_CLIENT_ID"%string); [|congruence].
  destruct (w_env w "AZURE_TENANT_ID"%string); [|congruence]. cbn [fst].
  destruct (retry_spawn_first_success (w_now_utc w) e w k retry_strategy 0 tok)
    as (H1 & H2 & H3).
  - rewrite retry_strategy_eq. simpl. lia.
  - intros i Hi. apply Hfail. lia.
  - exact Hok.
  - destruct (retry_spawn retry_strategy 0 (sas_attempt (w_now_utc w) e) w []) as [o x].
    cbn [fst snd] in H1, H2, H3. subst o.
    split; [reflexivity|]. split.
    + cbn [snd attempt_windows].
      rewrite attempt_windows_app, H2, app_nil_r. reflexivity.
    + cbn [snd sleeps].
      rewrite sleeps_app, H3, app_nil_r, retry_strategy_eq. reflexivity.
Qed.


Lemma generate_container_sas_first_success_witness :
  fst (generate_container_sas "acct" "cont" 2 world_third_attempt [])
    = Done ("TOK"%string, mkODT ((1700000000 + 7200) * NS_PER_SEC) 0) /\
  sleeps (snd (generate_container_sas "acct" "cont" 2 world_third_attempt [])) = [1000; 30000].
Proof.
  assert (Hd : Duration_hours 2 = Some (mkDuration (7200 * NS_PER_SEC))) by reflexivity.
  assert (He : odt_checked_add (w_now_utc world_third_attempt) (mkDuration (7200 * NS_PER_SEC))
               = Some (mkODT ((1700000000 + 7200) * NS_PER_SEC) 0)) by (vm_compute; reflexivity).
  destruct (generate_container_sas_first_success "acct" "cont" 2 world_third_attempt 2 "TOK" _ _ Hd He
              ltac:(discriminate) ltac:(discriminate) ltac:(lia)) as (H1 & _ & H3).
  - intros i Hi. exists ["timeout"]%string. simpl. destruct i as [|[|i]]; [reflexivity | reflexivity | lia].
  - reflexivity.
  - split; [exact H1|]. rewrite H3. reflexivity.
Defined.

(** Without [AZURE_CLIENT_ID] or [AZURE_TENANT_ID] in the environment,
    [generate_container_sas] makes no remote call and no wait: it panics
    when the window [now + Duration::hours(h)] cannot be computed (the
    [Duration] or the expiry overflows, before the credential is built),
    and otherwise fails with the credential error naming the first missing
    variable. *)
Theorem generate_container_sas_missing_credential a c h w :
  w_env w "AZURE_CLIENT_ID"%string = None \/ w_env w "AZURE_TENANT_ID"%string = None ->
  generate_container_sas a c h w [] =
    match Duration_hours h with
    | None => (Panic "overflow constructing `time::Duration`", [])
    | Some d =>
      match odt_checked_add (w_now_utc w) d with
      | None => (Panic "resulting value is out of range", [])
      | Some _ =>
        (Fail ["Failed to create Azure WorkloadIdentityCredential";
               match w_env w "AZURE_CLIENT_ID" with
               | None => "AZURE_CLIENT_ID env var missing"
               | Some _ => "AZURE_TENANT_ID env var missing"
               end; "environment variable not found"]%string,
         [EvLog Info "Starting SAS token generation"])
      end
    end.
Proof.
  intros Hmiss. rewrite generate_container_sas_run.
  destruct (Duration_hours h) as [d|]; [|reflexivity].
  destruct (odt_checked_add (w_now_utc w) d) as [e|]; [|reflexivity].
  rewrite create_credential_run.
  destruct (w_env w "AZURE_CLIENT_ID"%string); [|reflexivity].
  destruct (w_env w "AZURE_TENANT_ID"%string); [|reflexivity].
  destruct Hmiss; discriminate.
Qed.

Lemma generate_container_sas_missing_credential_witness :
  generate_container_sas "acct" "cont" 2 (mkWorld t0 (fun _ => None) (fun _ => Ok "TOK"%string) (fun _ d => d)
                                            (Ok tt) (Ok tt) (Ok tt) (Ok tt)) []
  = (Fail ["Failed to create Azure WorkloadIdentityCredential"; "AZURE_CLIENT_ID env var missing";
           "environment variable not found"]%string,
     [EvLog Info "Starting SAS token generation"]) /\
  generate_container_sas "acct" "cont" 9223372036854775807
    (mkWorld t0 (fun _ => None) (fun _ => Ok "TOK"%string) (fun _ d => d)
       (Ok tt) (Ok tt) (Ok tt) (Ok tt)) []
  = (Panic "overflow constructing `time::Duration`", []).
Proof.
  split.
  - rewrite (generate_container_sas_missing_credential "acct" "cont" 2
               (mkWorld t0 (fun _ => None) (fun _ => Ok "TOK"%string) (fun _ d => d) (Ok tt) (Ok tt) (Ok tt) (Ok tt))
               (or_introl eq_refl)).
    vm_compute. reflexivity.
  - rewrite (generate_container_sas_missing_credential "acct" "cont" 9223372036854775807
               (mkWorld t0 (fun _ => None) (fun _ => Ok "TOK"%string) (fun _ d => d) (Ok tt) (Ok tt) (Ok tt) (Ok tt))
               (or_introl eq_refl)).
    vm_compute. reflexivity.
Defined.

(** A due reconciliation of a resource without a name or a uid issues a
    token and then panics in [ensure_secret] at [controller_owner_ref(&())
    .unwrap()], right after its first log line: no Secret request is made
    and nothing is written. *)
Theorem reconcile_no_owner_ref_panics parse g ctx w :
  meta_name (metadata g) = None \/ meta_uid (metadata g) = None ->
  fst (should_regenerate (E := ReconcileError) parse (w_now_utc w) (status g)
         (unwrap_or (sas_renewal_hours (spec g)) (ctx_sas_renewal_hours ctx)) w []) = Done true ->
  (exists ti, fst (generate_token_info (storage_account (spec g)) (container_name (spec g))
                     (unwrap_or (sas_ttl_hours (spec g)) (ctx_sas_ttl_hours ctx)) (w_now_utc w) w []) = Done ti) ->
  fst (reconcile parse g ctx w []) = Panic "called `Option::unwrap()` on a `None` value" /\
  exists pre, snd (reconcile parse g ctx w []) =
                pre ++ [EvLog Info "Generated new SAS token"; EvLog Info "Ensuring Secret exists or is up to date"] /\
              Forall (fun ev => is_write ev = false) pre.
Proof.
  intros Hmeta Hdue [ti Hti].
  assert (Hor : controller_owner_ref g = None).
  { unfold controller_owner_ref. destruct Hmeta as [H|H]; rewrite H; [reflexivity|].
    destruct (meta_name (metadata g)); reflexivity. }
  pose proof (should_regenerate_logs (E := ReconcileError) parse (w_now_utc w) (status g)
                (unwrap_or (sas_renewal_hours (spec g)) (ctx_sas_renewal_hours ctx)) w) as [Hl _].
  apply log_no_write in Hl.
  pose proof (generate_token_info_no_write (storage_account (spec g)) (container_name (spec g))
                (unwrap_or (sas_ttl_hours (spec g)) (ctx_sas_ttl_hours ctx)) w) as Hg.
  rewrite reconcile_run. cbv zeta.
  destruct (should_regenerate _ _ _ _ w []) as [o x]. cbn [fst] in Hdue. subst o.
  destruct (generate_token_info _ _ _ _ w []) as [o y]. cbn [fst] in Hti. subst o.
  rewrite ensure_secret_run, Hor. cbn [fst snd] in *.
  split; [reflexivity|].
  exists (EvLog Info "Loaded SasGenerator spec and status" :: x ++ y).
  split; [simpl; rewrite <- !app_assoc; reflexivity|].
  constructor; [reflexivity|]. apply Forall_app. split; assumption.
Qed.

Lemma reconcile_no_owner_ref_panics_witness :
  fst (reconcile parse_none
         (mkSasGenerator (mkMeta (Some "gen"%string) (Some "ns"%string) None)
            (mkSpec "acct" "cont" None None None) None)
         (mkContext 1 2) world_first_issue [])
    = Panic "called `Option::unwrap()` on a `None` value".
Proof.
  refine (proj1 (reconcile_no_owner_ref_panics parse_none
                   (mkSasGenerator (mkMeta (Some "gen"%string) (Some "ns"%string) None)
                      (mkSpec "acct" "cont" None None None) None)
                   (mkContext 1 2) world_first_issue (or_intror eq_refl) _ _)).
  - vm_compute. reflexivity.
  - eexists. vm_compute. reflexivity.
Defined.
